(** * excel_to_yaml_single: validation and emission pipeline

    A shallow embedding of [src/excel_to_yaml_single.py].  Data frames are
    lists of rows in sheet order, a Python [str] is a [string] whose
    characters are read as the code points 0 to 255, the exit of [main] is
    a value of type [outcome]. *)

From Stdlib Require Import List String Ascii Bool Arith NArith ZArith Lia.
From Stdlib Require Import Sorting.Sorted Sorting.Permutation.
From Stdlib Require Import SpecFloat DecimalString.
Import ListNotations.

Local Open Scope string_scope.
Local Open Scope nat_scope.
Local Open Scope list_scope.

(** ** Text primitives of the Python runtime *)

Module PyStr.

(** [str.isspace] on one character, which is also the class [\s] of [re]
    for a [str] pattern: code points 9 to 13, 28 to 32, 133 and 160. *)
Definition is_space (c : ascii) : bool :=
  let n := N_of_ascii c in
  ((9 <=? n) && (n <=? 13) || (28 <=? n) && (n <=? 32)
   || (n =? 133) || (n =? 160))%N.

(** The class [\d] of [re] below code point 256. *)
Definition is_digit (c : ascii) : bool :=
  let n := N_of_ascii c in ((48 <=? n) && (n <=? 57))%N.

(** [str.lower] on one character below code point 256. *)
Definition lower_char (c : ascii) : ascii :=
  let n := N_of_ascii c in
  if ((65 <=? n) && (n <=? 90)
      || (192 <=? n) && (n <=? 222) && negb (n =? 215))%N
  then ascii_of_N (n + 32) else c.

Fixpoint lower (s : string) : string :=
  match s with
  | EmptyString => EmptyString
  | String c s' => String (lower_char c) (lower s')
  end.

Fixpoint lstrip (s : string) : string :=
  match s with
  | EmptyString => EmptyString
  | String c s' => if is_space c then lstrip s' else s
  end.

Fixpoint rstrip (s : string) : string :=
  match s with
  | EmptyString => EmptyString
  | String c s' =>
      let t := rstrip s' in
      if is_space c && (t =? "")%string then EmptyString else String c t
  end.

Definition strip (s : string) : string := rstrip (lstrip s).

(** [s.replace(old, new)] for a one-character [old]. *)
Fixpoint replace_char (old : ascii) (new : string) (s : string) : string :=
  match s with
  | EmptyString => EmptyString
  | String c s' =>
      if Ascii.eqb c old then (new ++ replace_char old new s')%string
      else String c (replace_char old new s')
  end.

(** [' ' * n] *)
Fixpoint spaces (n : nat) : string :=
  match n with
  | O => EmptyString
  | S k => String " " (spaces k)
  end.

(** [re.sub(r"\s+", "", s)]: every maximal run of whitespace is replaced
    by the empty text, which deletes every whitespace character. *)
Fixpoint re_sub_spaces (s : string) : string :=
  match s with
  | EmptyString => EmptyString
  | String c s' =>
      if is_space c then re_sub_spaces s' else String c (re_sub_spaces s')
  end.

(** [re.fullmatch(r"\d{n}", s)] as a truth value. *)
Fixpoint fullmatch_digits (n : nat) (s : string) : bool :=
  match n, s with
  | O, EmptyString => true
  | S k, String c s' => is_digit c && fullmatch_digits k s'
  | _, _ => false
  end.

(** Truthiness of a [str]. *)
Definition truthy (s : string) : bool := negb (s =? "")%string.

End PyStr.

(** ** Cells, rows and configuration *)

(** A raw cell handed to [normalize_str]: [None], or a value given by the
    text [str(x)] produces for it. *)
Definition cell := option string.

Definition VALID_TYPES : list (string * string) :=
  [("creditoraccount", "creditorAccount"); ("fourthparty", "fourthParty")].

(** [d.get(k, default)] on a dictionary with text keys. *)
Fixpoint dict_get (d : list (string * string)) (k default : string) : string :=
  match d with
  | [] => default
  | (k', v) :: d' => if (k' =? k)%string then v else dict_get d' k default
  end.

Definition normalize_str (x : cell) : string :=
  match x with
  | None => ""
  | Some s => PyStr.strip s
  end.

(** One record of the sheet [data]: the four columns [main] reads. *)
Record raw_row := mkRaw {
  raw_type : cell;
  raw_id : cell;
  raw_paymentLimit : cell;
  raw_comment : cell
}.

(** A row of [df_raw] once the normalised columns are in place.  [type_]
    keeps the untouched [type] column, which [add_errors] falls back on. *)
Record row := mkRow {
  excel_row : nat;
  type_ : cell;
  type_norm : string;
  id : string;
  paymentLimit : string;
  comment : string
}.

(** [args] as produced by [argparse]; the paths are left out. *)
Record config := mkConfig {
  dedupe_accounts : bool;
  dedupe_nzbn : bool;
  fail_on_duplicate_account : bool;
  fail_on_duplicate_nzbn : bool;
  require_numeric_paymentlimit : bool;
  max_creditor : option spec_float;
  max_fourth : option spec_float
}.

(** ** Normalisation and classification *)

(** Lines 89 and 97 to 100 for the record at 0-based position [i]. *)
Definition normalize_row (i : nat) (r : raw_row) : row :=
  {| excel_row := i + 2;
     type_ := raw_type r;
     type_norm := dict_get VALID_TYPES (PyStr.lower (normalize_str (raw_type r))) "";
     id := normalize_str (raw_id r);
     paymentLimit := normalize_str (raw_paymentLimit r);
     comment := normalize_str (raw_comment r) |}.

Fixpoint normalize_from (i : nat) (rs : list raw_row) : list row :=
  match rs with
  | [] => []
  | r :: rs' => normalize_row i r :: normalize_from (S i) rs'
  end.

Definition df_raw_of (rs : list raw_row) : list row := normalize_from 0 rs.

(** The row test of lines 103 and 104. *)
Definition all_blank (r : row) : bool :=
  forallb (fun v => (v =? "")%string)
          [type_norm r; id r; paymentLimit r; comment r].

Definition drop_blank (df_raw : list row) : list row :=
  filter (fun r => negb (all_blank r)) df_raw.

Definition select_type (t : string) (df : list row) : list row :=
  filter (fun r => (type_norm r =? t)%string) df.

Definition cred_of (df : list row) : list row := select_type "creditorAccount" df.
Definition fourth_of (df : list row) : list row := select_type "fourthParty" df.

(** The derived columns [nzbn] (line 131) and [accountNumber] (line 143). *)
Definition nzbn (r : row) : string := PyStr.re_sub_spaces (id r).
Definition accountNumber (r : row) : string := id r.

(** [frame.duplicated(subset=[key], keep=False)] and
    [frame.drop_duplicates(subset=[key], keep="first")]. *)
Section Duplicates.
Variable key : row -> string.

Definition occurrences (k : string) (frame : list row) : nat :=
  List.length (filter (fun r => (key r =? k)%string) frame).

Definition duplicated_mask (frame : list row) (r : row) : bool :=
  2 <=? occurrences (key r) frame.

Definition duplicated_rows (frame : list row) : list row :=
  filter (duplicated_mask frame) frame.

Fixpoint drop_duplicates_from (seen : list string) (frame : list row) : list row :=
  match frame with
  | [] => []
  | r :: frame' =>
      if existsb (fun k => (k =? key r)%string) seen
      then drop_duplicates_from seen frame'
      else r :: drop_duplicates_from (key r :: seen) frame'
  end.

Definition drop_duplicates (frame : list row) : list row :=
  drop_duplicates_from [] frame.
End Duplicates.


(** ** Row-level errors *)

(** One dictionary of [error_rows]. *)
Record error_row := mkError {
  err_excel_row : nat;
  err_type : string;
  err_id : string;
  err_paymentLimit : string;
  err_reason : string
}.

(** [x or ""] for the raw [type] cell. *)
Definition cell_or_empty (x : cell) : string :=
  match x with
  | None => ""
  | Some s => s
  end.

(** The dictionary [add_errors] builds for the row [rr]. *)
Definition error_of (reason : string) (rr : row) : error_row :=
  {| err_excel_row := excel_row rr;
     err_type := if PyStr.truthy (type_norm rr) then type_norm rr
                 else cell_or_empty (type_ rr);
     err_id := id rr;
     err_paymentLimit := paymentLimit rr;
     err_reason := reason |}.

(** [add_errors]: the list [error_rows] it appends to is threaded. *)
Definition add_errors (subdf : list row) (reason : string)
    (error_rows : list error_row) : list error_row :=
  fold_left (fun acc rr => acc ++ [error_of reason rr]) subdf error_rows.

(** The recurring statement [if len(sub) > 0: add_errors(sub, reason)]. *)
Definition add_if_any (sub : list row) (reason : string)
    (error_rows : list error_row) : list error_row :=
  if 0 <? List.length sub then add_errors sub reason error_rows else error_rows.

(** [frame.empty] *)
Definition empty (frame : list row) : bool :=
  match frame with
  | [] => true
  | _ :: _ => false
  end.

(** [f"{n}"] for a count. *)
Definition fmt_count (n : nat) : string := NilZero.string_of_uint (Nat.to_uint n).

Definition reason_bad_type : string :=
  "invalid 'type' (must be creditorAccount or fourthParty)".
Definition reason_bad_nzbn : string := "invalid NZBN (must be 13 digits)".
Definition reason_dup_nzbn : string := "duplicate NZBN".
Definition reason_dup_acct : string := "duplicate accountNumber".
Definition reason_non_numeric : string := "non-numeric paymentLimit".

(** The key of line 221 and Python's order on such pairs. *)
Definition sort_key (e : error_row) : nat * string := (err_excel_row e, err_reason e).

Definition key_le (a b : error_row) : bool :=
  (err_excel_row a <? err_excel_row b)
  || ((err_excel_row a =? err_excel_row b) && (err_reason a <=? err_reason b)%string).

(** [sorted(xs, key=...)]: a stable sort, here by insertion. *)
Fixpoint insert_sorted (x : error_row) (l : list error_row) : list error_row :=
  match l with
  | [] => [x]
  | y :: l' => if key_le x y then x :: l else y :: insert_sorted x l'
  end.

Definition sorted (l : list error_row) : list error_row :=
  fold_right insert_sorted [] l.

(** ** The document emitter *)

Definition emit_yaml_line (key value : string) (indent : nat) (comment : string) : string :=
  let qv := PyStr.replace_char "'" "''" value in
  let line := (PyStr.spaces indent ++ key ++ ":'" ++ qv ++ "'")%string in
  let line := if PyStr.truthy comment then (line ++ " #" ++ comment)%string else line in
  (line ++ String "010" "")%string.

(** The loop bodies of lines 249 to 256 and 259 to 266. *)
Definition emit_entry (field : string) (key : row -> string) (r : row) : list string :=
  if negb (PyStr.truthy (key r)) then []
  else [("  - " ++ PyStr.lstrip (emit_yaml_line field (key r) 4 ""))%string;
        emit_yaml_line "paymentLimit" (paymentLimit r) 6 (comment r)].

Definition emit_lines (cred fourth : list row) : list string :=
  [("creditorAccounts:" ++ String "010" "")%string]
  ++ flat_map (emit_entry "accountNumber" accountNumber) cred
  ++ [("fourthParties:" ++ String "010" "")%string]
  ++ flat_map (emit_entry "nzbn" nzbn) fourth.

(** ["".join(lines)] *)
Definition join (lines : list string) : string :=
  fold_right String.append "" lines.

(** ** Validation, reporting and [main] *)

(** The sheet [data] as [read_excel] returns it.  A record keeps the cells
    of the four columns [main] requires; where one of these columns is
    absent [main] exits before any cell is read. *)
Record sheet := mkSheet {
  columns : list string;
  records : list raw_row
}.

(** What [pd.ExcelFile] finds at the input path. *)
Inductive excel_file :=
| Unreadable
| Workbook (sheets : list (string * sheet)).

Fixpoint find_sheet (name : string) (sheets : list (string * sheet)) : option sheet :=
  match sheets with
  | [] => None
  | (n, sh) :: rest => if (n =? name)%string then Some sh else find_sheet name rest
  end.

Definition has_column (sh : sheet) (col : string) : bool :=
  existsb (fun c => (c =? col)%string) (columns sh).

Definition required_columns : list string := ["type"; "id"; "paymentLimit"; "comment"].

(** Lines 76 to 100: the exit status of an ingestion error, or [df_raw]
    with its normalised columns. *)
Definition ingest (input : excel_file) : nat + list row :=
  match input with
  | Unreadable => inl 1
  | Workbook sheets =>
      match find_sheet "data" sheets with
      | None => inl 2
      | Some sh =>
          if forallb (has_column sh) required_columns
          then inr (df_raw_of (records sh))
          else inl 2
      end
  end.

(** How a run of [main] ends. *)
Inductive outcome :=
| IngestionError (status : nat)
| ValidationFailed (errors_summary : list string) (error_rows_sorted : list error_row)
| Wrote (document : string).

Definition exit_status (o : outcome) : nat :=
  match o with
  | IngestionError status => status
  | ValidationFailed _ _ => 3
  | Wrote _ => 0
  end.

(** The text written to [args.output], if the run writes it. *)
Definition output_written (o : outcome) : option string :=
  match o with
  | Wrote document => Some document
  | _ => None
  end.

Section Pipeline.

(** The builtin [float] on a text, [None] where it raises, and the text
    an f-string gives a [float]. *)
Variable float_of_str : string -> option spec_float.
Variable str_of_float : spec_float -> string.

Definition to_number_or_none (s : string) : option spec_float :=
  float_of_str (PyStr.strip s).

(** The derived column [_pl_num] (lines 152 and 163). *)
Definition pl_num (r : row) : option spec_float := to_number_or_none (paymentLimit r).

(** [Series.isna] on one value of [_pl_num]. *)
Definition isna (x : option spec_float) : bool :=
  match x with
  | None => true
  | Some S754_nan => true
  | Some _ => false
  end.

(** [x > m] on one value of [_pl_num]. *)
Definition gt_max (x : option spec_float) (m : spec_float) : bool :=
  match x with
  | None => false
  | Some v => SFltb m v
  end.

Definition reason_over (m : spec_float) : string :=
  ("paymentLimit > " ++ str_of_float m)%string.

Definition bad_nzbn_rows (fourth : list row) : list row :=
  filter (fun r => negb (PyStr.fullmatch_digits 13 (nzbn r))) fourth.

Definition bad_num_rows (frame : list row) : list row :=
  filter (fun r => isna (pl_num r)) frame.

Definition over_rows (m : spec_float) (frame : list row) : list row :=
  filter (fun r => negb (isna (pl_num r)) && gt_max (pl_num r) m) frame.

Definition is_some {A : Type} (x : option A) : bool :=
  match x with
  | Some _ => true
  | None => false
  end.

(** Lines 110 to 171: the list [error_rows] after every check has run. *)
Definition validate (args : config) (df : list row) : list error_row :=
  let cred := cred_of df in
  let fourth := fourth_of df in
  let error_rows := [] in
  let bad_type := select_type "" df in
  let error_rows := add_if_any bad_type reason_bad_type error_rows in
  let error_rows :=
    if negb (empty fourth) then
      let error_rows := add_if_any (bad_nzbn_rows fourth) reason_bad_nzbn error_rows in
      add_if_any (duplicated_rows nzbn fourth) reason_dup_nzbn error_rows
    else error_rows in
  let error_rows :=
    if negb (empty cred) then
      add_if_any (duplicated_rows accountNumber cred) reason_dup_acct error_rows
    else error_rows in
  if require_numeric_paymentlimit args || is_some (max_fourth args)
     || is_some (max_creditor args)
  then
    let error_rows :=
      if negb (empty fourth) then
        let error_rows :=
          if require_numeric_paymentlimit args
          then add_if_any (bad_num_rows fourth) reason_non_numeric error_rows
          else error_rows in
        match max_fourth args with
        | Some m => add_if_any (over_rows m fourth) (reason_over m) error_rows
        | None => error_rows
        end
      else error_rows in
    if negb (empty cred) then
      let error_rows :=
        if require_numeric_paymentlimit args
        then add_if_any (bad_num_rows cred) reason_non_numeric error_rows
        else error_rows in
      match max_creditor args with
      | Some m => add_if_any (over_rows m cred) (reason_over m) error_rows
      | None => error_rows
      end
    else error_rows
  else error_rows.

(** The statement [if n > 0: errors_summary.append(f"{n}...")]. *)
Definition append_if_pos (n : nat) (text : string) (summary : list string) : list string :=
  if 0 <? n then summary ++ [(fmt_count n ++ text)%string] else summary.

(** Lines 174 to 212. *)
Definition summarize (args : config) (df : list row) : list string :=
  let cred := cred_of df in
  let fourth := fourth_of df in
  let bad_type := select_type "" df in
  let errors_summary := [] in
  let errors_summary :=
    append_if_pos (List.length bad_type) " rows have invalid 'type'." errors_summary in
  let errors_summary :=
    if negb (empty fourth) then
      let errors_summary :=
        append_if_pos (List.length (bad_nzbn_rows fourth))
          " fourthParty rows have invalid NZBN (must be 13 digits)." errors_summary in
      append_if_pos (List.length (filter (duplicated_mask nzbn fourth) fourth))
        " fourthParty rows have duplicate NZBNs." errors_summary
    else errors_summary in
  let errors_summary :=
    if negb (empty cred) then
      append_if_pos (List.length (filter (duplicated_mask accountNumber cred) cred))
        " creditorAccount rows have duplicate accountNumbers." errors_summary
    else errors_summary in
  if require_numeric_paymentlimit args || is_some (max_fourth args)
     || is_some (max_creditor args)
  then
    let errors_summary :=
      if negb (empty fourth) && require_numeric_paymentlimit args then
        append_if_pos (List.length (filter (fun r => isna (pl_num r)) fourth))
          " fourthParty rows have non-numeric paymentLimit." errors_summary
      else errors_summary in
    let errors_summary :=
      if negb (empty cred) && require_numeric_paymentlimit args then
        append_if_pos (List.length (filter (fun r => isna (pl_num r)) cred))
          " creditorAccount rows have non-numeric paymentLimit." errors_summary
      else errors_summary in
    let errors_summary :=
      match negb (empty fourth), max_fourth args with
      | true, Some m =>
          append_if_pos
            (List.length (filter (fun r => negb (isna (pl_num r)) && gt_max (pl_num r) m) fourth))
            (" fourthParty rows have paymentLimit > " ++ str_of_float m ++ ".")%string
            errors_summary
      | _, _ => errors_summary
      end in
    match negb (empty cred), max_creditor args with
    | true, Some m =>
        append_if_pos
          (List.length (filter (fun r => negb (isna (pl_num r)) && gt_max (pl_num r) m) cred))
          (" creditorAccount rows have paymentLimit > " ++ str_of_float m ++ ".")%string
          errors_summary
    | _, _ => errors_summary
    end
  else errors_summary.

(** Lines 239 to 269: the frames after the optional de-duplication and
    the text written to the output path. *)
Definition dedupe_fourth (args : config) (fourth : list row) : list row :=
  if dedupe_nzbn args && negb (empty fourth) then drop_duplicates nzbn fourth else fourth.

Definition dedupe_cred (args : config) (cred : list row) : list row :=
  if dedupe_accounts args && negb (empty cred)
  then drop_duplicates accountNumber cred else cred.

Definition document_of (args : config) (df : list row) : string :=
  join (emit_lines (dedupe_cred args (cred_of df)) (dedupe_fourth args (fourth_of df))).

(** Lines 102 to 271 on the normalised frame [df_raw]. *)
Definition process (args : config) (df_raw : list row) : outcome :=
  let df := drop_blank df_raw in
  let error_rows := validate args df in
  let errors_summary := summarize args df in
  match error_rows with
  | _ :: _ => ValidationFailed errors_summary (sorted error_rows)
  | [] => Wrote (document_of args df)
  end.

Definition main (args : config) (input : excel_file) : outcome :=
  match ingest input with
  | inl status => IngestionError status
  | inr df_raw => process args df_raw
  end.

(** The list [error_rows] of a run that gets past the ingestion. *)
Definition violations (args : config) (input : excel_file) : list error_row :=
  match ingest input with
  | inl _ => []
  | inr df_raw => validate args (drop_blank df_raw)
  end.

End Pipeline.

(** An instance of the two builtins for worked examples, defined on
    unsigned decimal integers only. *)
Module Demo.

Fixpoint digits_value (acc : N) (s : string) : option N :=
  match s with
  | EmptyString => Some acc
  | String c s' =>
      if PyStr.is_digit c
      then digits_value (10 * acc + (N_of_ascii c - 48))%N s'
      else None
  end.

Definition float_of_str (s : string) : option spec_float :=
  match s with
  | EmptyString => None
  | _ =>
      match digits_value 0 s with
      | Some N0 => Some (S754_zero false)
      | Some (Npos p) => Some (S754_finite false p 0)
      | None => None
      end
  end.

Definition str_of_float (f : spec_float) : string :=
  match f with
  | S754_zero _ => "0.0"
  | S754_finite false p 0%Z => (fmt_count (Pos.to_nat p) ++ ".0")%string
  | _ => "nan"
  end.

Definition no_flags : config :=
  {| dedupe_accounts := false; dedupe_nzbn := false;
     fail_on_duplicate_account := false; fail_on_duplicate_nzbn := false;
     require_numeric_paymentlimit := false;
     max_creditor := None; max_fourth := None |}.

Definition text_row (t i p c : string) : raw_row :=
  {| raw_type := Some t; raw_id := Some i;
     raw_paymentLimit := Some p; raw_comment := Some c |}.

Definition book (rs : list raw_row) : excel_file :=
  Workbook [("data", {| columns := required_columns; records := rs |})].

End Demo.

(** Setting the two de-duplication flags, and the two fail-on-duplicate
    flags, of a configuration. *)
Definition with_dedupe (accounts nzbn_flag : bool) (args : config) : config :=
  {| dedupe_accounts := accounts; dedupe_nzbn := nzbn_flag;
     fail_on_duplicate_account := fail_on_duplicate_account args;
     fail_on_duplicate_nzbn := fail_on_duplicate_nzbn args;
     require_numeric_paymentlimit := require_numeric_paymentlimit args;
     max_creditor := max_creditor args; max_fourth := max_fourth args |}.

Definition with_fail_on_duplicate (account nzbn_flag : bool) (args : config) : config :=
  {| dedupe_accounts := dedupe_accounts args; dedupe_nzbn := dedupe_nzbn args;
     fail_on_duplicate_account := account;
     fail_on_duplicate_nzbn := nzbn_flag;
     require_numeric_paymentlimit := require_numeric_paymentlimit args;
     max_creditor := max_creditor args; max_fourth := max_fourth args |}.

(** ** Reading the document back *)

(** The reader of the emitted format used for the round trip: a line is a
    section header [name:] or, after indentation and the entry marker, a
    pair [key:'value'] whose value runs to the closing quote, a doubled
    quote standing for one quote; what follows the closing quote up to the
    end of the line is the annotation and is skipped. *)
Inductive token :=
| Header (name : string)
| Pair (key value : string).

Inductive scan_state :=
| LineStart
| InKey (key : string)
| AfterColon (key : string)
| InValue (key value : string)
| QuoteSeen (key value : string)
| Trailing.

Definition LF : ascii := "010"%char.

Definition snoc (s : string) (c : ascii) : string := (s ++ String c "")%string.

Fixpoint scan (st : scan_state) (s : string) : option (list token) :=
  match s with
  | EmptyString =>
      match st with
      | LineStart | Trailing => Some []
      | QuoteSeen k v => Some [Pair k v]
      | _ => None
      end
  | String c s' =>
      match st with
      | LineStart =>
          if Ascii.eqb c " " || Ascii.eqb c "-" || Ascii.eqb c LF then scan LineStart s'
          else if Ascii.eqb c ":" then scan (AfterColon "") s'
          else scan (InKey (String c "")) s'
      | InKey k =>
          if Ascii.eqb c ":" then scan (AfterColon k) s'
          else if Ascii.eqb c LF then None
          else scan (InKey (snoc k c)) s'
      | AfterColon k =>
          if Ascii.eqb c "'" then scan (InValue k "") s'
          else if Ascii.eqb c LF then option_map (cons (Header k)) (scan LineStart s')
          else None
      | InValue k v =>
          if Ascii.eqb c "'" then scan (QuoteSeen k v) s'
          else scan (InValue k (snoc v c)) s'
      | QuoteSeen k v =>
          if Ascii.eqb c "'" then scan (InValue k (snoc v "'")) s'
          else if Ascii.eqb c LF then option_map (cons (Pair k v)) (scan LineStart s')
          else option_map (cons (Pair k v)) (scan Trailing s')
      | Trailing =>
          if Ascii.eqb c LF then scan LineStart s' else scan Trailing s'
      end
  end.

Fixpoint leading_pairs (ts : list token) : list (string * string) :=
  match ts with
  | Pair k v :: ts' => (k, v) :: leading_pairs ts'
  | _ => []
  end.

Fixpoint sections (ts : list token) : list (string * list (string * string)) :=
  match ts with
  | [] => []
  | Header n :: ts' => (n, leading_pairs ts') :: sections ts'
  | Pair _ _ :: ts' => sections ts'
  end.

Definition parse_document (s : string) : option (list (string * list (string * string))) :=
  option_map sections (scan LineStart s).

(** The rows the emitter writes an entry for, and the pairs of an entry. *)
Definition emitted (key : row -> string) (frame : list row) : list row :=
  filter (fun r => PyStr.truthy (key r)) frame.

Definition entry_pairs (field : string) (key : row -> string) (r : row)
    : list (string * string) :=
  [(field, key r); ("paymentLimit", paymentLimit r)].

Definition record_pairs (args : config) (df : list row)
    : list (string * list (string * string)) :=
  [("creditorAccounts",
    flat_map (entry_pairs "accountNumber" accountNumber)
      (emitted accountNumber (dedupe_cred args (cred_of df))));
   ("fourthParties",
    flat_map (entry_pairs "nzbn" nzbn)
      (emitted nzbn (dedupe_fourth args (fourth_of df))))].

(** The frame [df] of a run that gets past the ingestion. *)
Definition frame_of (input : excel_file) : list row :=
  match ingest input with
  | inr df_raw => drop_blank df_raw
  | inl _ => []
  end.

Fixpoint has_char (c : ascii) (s : string) : bool :=
  match s with
  | EmptyString => false
  | String c' s' => Ascii.eqb c' c || has_char c s'
  end.

(** ** Categories of violations *)

(** A category is a reason together with, possibly, the kind the entry is
    reported under. *)
Definition kind_match (kind : option string) (t : string) : bool :=
  match kind with
  | Some k => (t =? k)%string
  | None => true
  end.

Definition in_category (kind : option string) (reason : string) (e : error_row) : bool :=
  (err_reason e =? reason)%string && kind_match kind (err_type e).

Definition count_of (kind : option string) (reason : string) (errs : list error_row) : nat :=
  List.length (filter (in_category kind reason) errs).

(** ** The violations of a run, check by check *)

(** The errors of the numeric checks on one frame. *)
Definition numeric_errors (float_of_str : string -> option spec_float)
    (str_of_float : spec_float -> string)
    (args : config) (ceiling : option spec_float) (frame : list row) : list error_row :=
  (if require_numeric_paymentlimit args
   then map (error_of reason_non_numeric) (bad_num_rows float_of_str frame)
   else [])
  ++ match ceiling with
     | Some m => map (error_of (reason_over str_of_float m)) (over_rows float_of_str m frame)
     | None => []
     end.

(** The entries a run over the frame [df] records: one constructor per
    check and kind. *)
Inductive violation (float_of_str : string -> option spec_float)
    (str_of_float : spec_float -> string)
    (args : config) (df : list row) : error_row -> Prop :=
| V_bad_type r :
    In r df -> type_norm r = "" ->
    violation float_of_str str_of_float args df (error_of reason_bad_type r)
| V_bad_nzbn r :
    In r (fourth_of df) -> PyStr.fullmatch_digits 13 (nzbn r) = false ->
    violation float_of_str str_of_float args df (error_of reason_bad_nzbn r)
| V_dup_nzbn r :
    In r (fourth_of df) -> 2 <= occurrences nzbn (nzbn r) (fourth_of df) ->
    violation float_of_str str_of_float args df (error_of reason_dup_nzbn r)
| V_dup_acct r :
    In r (cred_of df) -> 2 <= occurrences accountNumber (accountNumber r) (cred_of df) ->
    violation float_of_str str_of_float args df (error_of reason_dup_acct r)
| V_non_numeric_fourth r :
    require_numeric_paymentlimit args = true ->
    In r (fourth_of df) -> isna (pl_num float_of_str r) = true ->
    violation float_of_str str_of_float args df (error_of reason_non_numeric r)
| V_over_fourth r m :
    max_fourth args = Some m ->
    In r (fourth_of df) -> isna (pl_num float_of_str r) = false ->
    gt_max (pl_num float_of_str r) m = true ->
    violation float_of_str str_of_float args df (error_of (reason_over str_of_float m) r)
| V_non_numeric_cred r :
    require_numeric_paymentlimit args = true ->
    In r (cred_of df) -> isna (pl_num float_of_str r) = true ->
    violation float_of_str str_of_float args df (error_of reason_non_numeric r)
| V_over_cred r m :
    max_creditor args = Some m ->
    In r (cred_of df) -> isna (pl_num float_of_str r) = false ->
    gt_max (pl_num float_of_str r) m = true ->
    violation float_of_str str_of_float args df (error_of (reason_over str_of_float m) r).

(** The entries of a category that also pass the test [q], and their
    number in the block of errors one check adds for the rows [rows] of
    kind [t]. *)
Definition selects (kind : option string) (reason : string) (q : error_row -> bool)
    (e : error_row) : bool :=
  in_category kind reason e && q e.

Definition block_count (kind : option string) (reason : string) (q : error_row -> bool)
    (t reason' : string) (rows : list row) : nat :=
  if (reason' =? reason)%string && kind_match kind t
  then List.length (filter (fun r => q (error_of reason' r)) rows)
  else 0.

Definition numeric_count (float_of_str : string -> option spec_float)
    (str_of_float : spec_float -> string)
    (kind : option string) (reason : string) (q : error_row -> bool)
    (args : config) (ceiling : option spec_float) (t : string) (frame : list row) : nat :=
  (if require_numeric_paymentlimit args
   then block_count kind reason q t reason_non_numeric (bad_num_rows float_of_str frame)
   else 0)
  + match ceiling with
    | Some m =>
        block_count kind reason q t (reason_over str_of_float m)
          (over_rows float_of_str m frame)
    | None => 0
    end.

(** The entries whose identifier has the key [k]. *)
Definition keyed (key : string -> string) (k : string) (e : error_row) : bool :=
  (key (err_id e) =? k)%string.

(** A summary line for a count, present when the count is positive. *)
Definition summary_line (n : nat) (text : string) : list string :=
  if 0 <? n then [(fmt_count n ++ text)%string] else [].

(** The summary lines obtained by counting, in the detailed list, the
    entries of each category. *)
Definition summary_from_counts (str_of_float : spec_float -> string)
    (args : config) (detailed : list error_row) : list string :=
  summary_line (count_of None reason_bad_type detailed) " rows have invalid 'type'."
  ++ summary_line (count_of (Some "fourthParty") reason_bad_nzbn detailed)
       " fourthParty rows have invalid NZBN (must be 13 digits)."
  ++ summary_line (count_of (Some "fourthParty") reason_dup_nzbn detailed)
       " fourthParty rows have duplicate NZBNs."
  ++ summary_line (count_of (Some "creditorAccount") reason_dup_acct detailed)
       " creditorAccount rows have duplicate accountNumbers."
  ++ summary_line (count_of (Some "fourthParty") reason_non_numeric detailed)
       " fourthParty rows have non-numeric paymentLimit."
  ++ summary_line (count_of (Some "creditorAccount") reason_non_numeric detailed)
       " creditorAccount rows have non-numeric paymentLimit."
  ++ match max_fourth args with
     | Some m =>
         summary_line (count_of (Some "fourthParty") (reason_over str_of_float m) detailed)
           (" fourthParty rows have paymentLimit > " ++ str_of_float m ++ ".")%string
     | None => []
     end
  ++ match max_creditor args with
     | Some m =>
         summary_line (count_of (Some "creditorAccount") (reason_over str_of_float m) detailed)
           (" creditorAccount rows have paymentLimit > " ++ str_of_float m ++ ".")%string
     | None => []
     end.

(** The order of the detailed list. *)
Definition key_order (a b : error_row) : Prop := key_le a b = true.

(** The tokens of a list of pairs, and what the reader needs of the name
    of a key field. *)
Definition pair_tokens (kvs : list (string * string)) : list token :=
  map (fun kv => Pair (fst kv) (snd kv)) kvs.

Definition field_ok (field : string) : Prop :=
  (forall s, PyStr.lstrip (PyStr.spaces 4 ++ field ++ s) = (field ++ s)%string)
  /\ (forall s, scan LineStart ("  - " ++ field ++ ":'" ++ s) = scan (InValue field "") s).

(** ** Worked runs *)

Module Scenario.

Definition run := main Demo.float_of_str Demo.str_of_float.
Definition found := violations Demo.float_of_str Demo.str_of_float.

Definition require_numeric : config :=
  {| dedupe_accounts := false; dedupe_nzbn := false;
     fail_on_duplicate_account := false; fail_on_duplicate_nzbn := false;
     require_numeric_paymentlimit := true;
     max_creditor := None; max_fourth := None |}.

Definition hundred : spec_float := S754_finite false 100 0.

Definition ceiling_100 : config :=
  {| dedupe_accounts := false; dedupe_nzbn := false;
     fail_on_duplicate_account := false; fail_on_duplicate_nzbn := false;
     require_numeric_paymentlimit := false;
     max_creditor := None; max_fourth := Some hundred |}.

(** Scenario A of the specification. *)
Definition rows_a : list raw_row :=
  [Demo.text_row "creditorAccount" "100" "500" "";
   Demo.text_row "fourthParty" "1234567890123" "abc" "";
   Demo.text_row "bogus" "7" "1" ""].

(** Scenarios B and C: the same NZBN twice, once written with a blank. *)
Definition rows_b : list raw_row :=
  [Demo.text_row "fourthParty" "9999999999999" "1" "";
   Demo.text_row "fourthParty" "9999 999999999" "2" ""].

(** Scenario D. *)
Definition rows_d : list raw_row :=
  [Demo.text_row "creditorAccount" "42" "10" "note"].

(** The same key twice among the rows of each kind. *)
Definition rows_dup : list raw_row :=
  rows_b
  ++ [Demo.text_row "creditorAccount" "9999999999999" "1" "";
      Demo.text_row "creditorAccount" "9999999999999" "2" ""].

(** A limit equal to the ceiling of 100. *)
Definition rows_at_ceiling : list raw_row :=
  [Demo.text_row "fourthParty" "1234567890123" "100" ""].

(** A malformed NZBN that is also repeated. *)
Definition rows_malformed : list raw_row :=
  [Demo.text_row "fourthParty" "12 34" "1" "";
   Demo.text_row "fourthParty" "1234" "2" ""].

(** A kind that is not recognised in a row whose other cells hold blanks
    only. *)
Definition rows_bogus : list raw_row :=
  [Demo.text_row "bogus" " " " " " "].

(** A comment that holds line feeds. *)
Definition injected_comment : string :=
  ("x" ++ String LF "  - accountNumber:'3'" ++ String LF "      paymentLimit:'4'")%string.

Definition rows_injected : list raw_row :=
  [Demo.text_row "creditorAccount" "1" "2" injected_comment].

Definition rows_two_accounts : list raw_row :=
  [Demo.text_row "creditorAccount" "1" "2" "x";
   Demo.text_row "creditorAccount" "3" "4" ""].

(** A creditor account without an account number. *)
Definition rows_no_key : list raw_row :=
  [Demo.text_row "creditorAccount" "" "5" ""].

End Scenario.

(** ** Notions used by the further properties *)

(** The configuration with the numeric checks switched off. *)
Definition structural_only (args : config) : config :=
  {| dedupe_accounts := dedupe_accounts args; dedupe_nzbn := dedupe_nzbn args;
     fail_on_duplicate_account := fail_on_duplicate_account args;
     fail_on_duplicate_nzbn := fail_on_duplicate_nzbn args;
     require_numeric_paymentlimit := false;
     max_creditor := None; max_fourth := None |}.

(** The records of the sheet [data], when the workbook has one. *)
Definition records_of (input : excel_file) : list raw_row :=
  match input with
  | Unreadable => []
  | Workbook sheets =>
      match find_sheet "data" sheets with
      | Some sh => records sh
      | None => []
      end
  end.

(** Whitespace at the two ends of a text, and texts of whitespace only. *)
Definition starts_with_space (s : string) : bool :=
  match s with
  | EmptyString => false
  | String c _ => PyStr.is_space c
  end.

Fixpoint ends_with_space (s : string) : bool :=
  match s with
  | EmptyString => false
  | String c EmptyString => PyStr.is_space c
  | String _ s' => ends_with_space s'
  end.

Fixpoint all_space (s : string) : bool :=
  match s with
  | EmptyString => true
  | String c s' => PyStr.is_space c && all_space s'
  end.

(** A cell that is missing or holds whitespace only. *)
Definition blank_cell (x : cell) : bool :=
  match x with
  | None => true
  | Some s => all_space s
  end.

(** The record with its [type] cell in lower case. *)
Definition lower_type (r : raw_row) : raw_row :=
  {| raw_type := option_map PyStr.lower (raw_type r);
     raw_id := raw_id r;
     raw_paymentLimit := raw_paymentLimit r;
     raw_comment := raw_comment r |}.

(** A key the reader takes as it is: it is not empty, does not start
    with a blank, a dash, a colon or a line feed, and holds no colon and no
    line feed. *)
Definition plain_key (key : string) : bool :=
  match key with
  | EmptyString => false
  | String c k =>
      negb (Ascii.eqb c " " || Ascii.eqb c "-" || Ascii.eqb c LF || Ascii.eqb c ":")
      && negb (has_char ":" k) && negb (has_char LF k)
  end.

(** Further worked runs. *)
Module Run.

(** The same identifier once as a creditor account and once as a fourth
    party. *)
Definition rows_cross : list raw_row :=
  [Demo.text_row "creditorAccount" "9999999999999" "1" "";
   Demo.text_row "fourthParty" "9999999999999" "2" ""].

(** The second record of scenario A as a row, and the entry of the third. *)
Definition row_abc : row :=
  normalize_row 1 (Demo.text_row "fourthParty" "1234567890123" "abc" "").

Definition entry_bogus : error_row := mkError 4 "bogus" "7" "1" reason_bad_type.

Definition row_cross_fourth : row :=
  normalize_row 1 (Demo.text_row "fourthParty" "9999999999999" "2" "").

Definition row_cross_cred : row :=
  normalize_row 0 (Demo.text_row "creditorAccount" "9999999999999" "1" "").


End Run.

(** The reasons an entry of a kind can carry under a configuration. *)
Definition fourth_reason (str_of_float : spec_float -> string) (args : config)
    (reason : string) : Prop :=
  reason = reason_bad_nzbn \/ reason = reason_dup_nzbn \/ reason = reason_non_numeric
  \/ exists m, max_fourth args = Some m /\ reason = reason_over str_of_float m.

Definition cred_reason (str_of_float : spec_float -> string) (args : config)
    (reason : string) : Prop :=
  reason = reason_dup_acct \/ reason = reason_non_numeric
  \/ exists m, max_creditor args = Some m /\ reason = reason_over str_of_float m.


(** * Properties *)

(** ** The accumulated list in closed form *)

Lemma add_errors_app (sub : list row) (reason : string) (errs : list error_row) :
  add_errors sub reason errs = errs ++ map (error_of reason) sub.
Proof.
  unfold add_errors. revert errs.
  induction sub as [|r sub IH]; intros errs; simpl.
  - now rewrite app_nil_r.
  - rewrite IH, <- app_assoc. reflexivity.
Qed.

Lemma add_if_any_app (sub : list row) (reason : string) (errs : list error_row) :
  add_if_any sub reason errs = errs ++ map (error_of reason) sub.
Proof.
  unfold add_if_any. destruct sub as [|r sub].
  - simpl. now rewrite app_nil_r.
  - cbn [List.length Nat.ltb Nat.leb]. apply add_errors_app.
Qed.

(** ** Comparison of floats *)

Lemma SFeqb_not_gt (v m : spec_float) : SFeqb v m = true -> SFltb m v = false.
Proof.
  unfold SFeqb, SFltb.
  destruct v as [s|s| |s p e], m as [s'|s'| |s' p' e']; simpl;
    try destruct s; try destruct s'; try discriminate; try reflexivity.
  - destruct (Z.compare e e') eqn:Ee; try discriminate.
    apply Z.compare_eq in Ee. subst e'. rewrite Z.compare_refl.
    destruct (Pos.compare_cont Eq p p') eqn:Ep; try discriminate.
    apply Pos.compare_eq in Ep. subst p'. now rewrite Pos.compare_cont_refl.
  - destruct (Z.compare e e') eqn:Ee; try discriminate.
    apply Z.compare_eq in Ee. subst e'. rewrite Z.compare_refl.
    destruct (Pos.compare_cont Eq p p') eqn:Ep; try discriminate.
    apply Pos.compare_eq in Ep. subst p'. now rewrite Pos.compare_cont_refl.
Qed.

Lemma SFltb_irrefl (m : spec_float) : SFltb m m = false.
Proof.
  unfold SFltb. destruct m as [s|s| |s p e]; simpl; try destruct s; try reflexivity;
    now rewrite Z.compare_refl, Pos.compare_cont_refl.
Qed.

(** ** Rows of the two frames and their error entries *)

Lemma in_select_type (t : string) (df : list row) (r : row) :
  In r (select_type t df) <-> In r df /\ type_norm r = t.
Proof. unfold select_type. rewrite filter_In, String.eqb_eq. reflexivity. Qed.

Lemma in_fourth_of (df : list row) (r : row) :
  In r (fourth_of df) <-> In r df /\ type_norm r = "fourthParty".
Proof. apply in_select_type. Qed.

Lemma in_cred_of (df : list row) (r : row) :
  In r (cred_of df) <-> In r df /\ type_norm r = "creditorAccount".
Proof. apply in_select_type. Qed.

Lemma error_of_inv (reason reason' : string) (r r' : row) :
  error_of reason r = error_of reason' r' ->
  reason = reason' /\ excel_row r = excel_row r' /\ id r = id r'
  /\ paymentLimit r = paymentLimit r'
  /\ err_type (error_of reason r) = err_type (error_of reason' r').
Proof. intros H. split; [|split; [|split; [|split]]]; now injection H. Qed.

Lemma err_type_typed (reason : string) (r : row) :
  type_norm r <> "" -> err_type (error_of reason r) = type_norm r.
Proof.
  intros H. unfold error_of, PyStr.truthy. simpl.
  apply String.eqb_neq in H. now rewrite H.
Qed.

Lemma err_type_fourth (reason : string) (df : list row) (r : row) :
  In r (fourth_of df) -> err_type (error_of reason r) = "fourthParty".
Proof.
  intros H. apply in_fourth_of in H as [_ H].
  rewrite err_type_typed; rewrite H; [reflexivity | discriminate].
Qed.

Lemma err_type_cred (reason : string) (df : list row) (r : row) :
  In r (cred_of df) -> err_type (error_of reason r) = "creditorAccount".
Proof.
  intros H. apply in_cred_of in H as [_ H].
  rewrite err_type_typed; rewrite H; [reflexivity | discriminate].
Qed.

(** ** The sort of the detailed list *)

Lemma ascii_compare_refl (x : ascii) : Ascii.compare x x = Eq.
Proof. unfold Ascii.compare. apply N.compare_refl. Qed.

Lemma string_compare_refl (s : string) : String.compare s s = Eq.
Proof.
  induction s as [|x s IH]; simpl; [reflexivity|].
  now rewrite ascii_compare_refl.
Qed.

Lemma string_compare_trans_lt (a b c : string) :
  String.compare a b = Lt -> String.compare b c = Lt -> String.compare a c = Lt.
Proof.
  revert b c. induction a as [|x a IH]; intros [|y b] [|z c]; simpl; try congruence.
  destruct (Ascii.compare x y) eqn:Exy, (Ascii.compare y z) eqn:Eyz; try congruence.
  - apply Ascii.compare_eq_iff in Exy, Eyz. subst y z.
    rewrite ascii_compare_refl. apply IH.
  - apply Ascii.compare_eq_iff in Exy. subst y. now rewrite Eyz.
  - apply Ascii.compare_eq_iff in Eyz. subst z. now rewrite Exy.
  - intros _ _. unfold Ascii.compare in *. rewrite N.compare_lt_iff in Exy, Eyz.
    assert (H : (N_of_ascii x < N_of_ascii z)%N) by lia.
    apply N.compare_lt_iff in H. now rewrite H.
Qed.

Lemma string_leb_trans (a b c : string) :
  (a <=? b)%string = true -> (b <=? c)%string = true -> (a <=? c)%string = true.
Proof.
  unfold String.leb.
  destruct (String.compare a b) eqn:Eab; try discriminate;
    destruct (String.compare b c) eqn:Ebc; try discriminate; intros _ _.
  - apply String.compare_eq_iff in Eab, Ebc. subst. now rewrite string_compare_refl.
  - apply String.compare_eq_iff in Eab. subst. now rewrite Ebc.
  - apply String.compare_eq_iff in Ebc. subst. now rewrite Eab.
  - now rewrite (string_compare_trans_lt _ _ _ Eab Ebc).
Qed.

Lemma key_le_total (a b : error_row) : key_le a b = true \/ key_le b a = true.
Proof.
  unfold key_le.
  destruct (Nat.lt_trichotomy (err_excel_row a) (err_excel_row b)) as [H|[H|H]].
  - left. apply Nat.ltb_lt in H. now rewrite H.
  - rewrite H, Nat.eqb_refl, Nat.ltb_irrefl. simpl.
    apply String.leb_total.
  - right. apply Nat.ltb_lt in H. now rewrite H.
Qed.

Lemma key_le_trans (a b c : error_row) :
  key_le a b = true -> key_le b c = true -> key_le a c = true.
Proof.
  unfold key_le. rewrite !orb_true_iff, !andb_true_iff, !Nat.ltb_lt, !Nat.eqb_eq.
  intros [H1|[H1 L1]] [H2|[H2 L2]].
  - left. lia.
  - left. lia.
  - left. lia.
  - right. split; [lia|]. eapply string_leb_trans; eassumption.
Qed.

Lemma key_le_antisym (a b : error_row) :
  key_le a b = true -> key_le b a = true -> sort_key a = sort_key b.
Proof.
  unfold key_le, sort_key.
  rewrite !orb_true_iff, !andb_true_iff, !Nat.ltb_lt, !Nat.eqb_eq.
  intros [H1|[H1 L1]] [H2|[H2 L2]]; try lia.
  f_equal; [exact H1|]. now apply String.leb_antisym.
Qed.

Lemma insert_sorted_perm (x : error_row) (l : list error_row) :
  Permutation (insert_sorted x l) (x :: l).
Proof.
  induction l as [|y l IH]; simpl; [reflexivity|].
  destruct (key_le x y); [reflexivity|].
  rewrite IH. apply perm_swap.
Qed.

Lemma sorted_perm (l : list error_row) : Permutation (sorted l) l.
Proof.
  induction l as [|x l IH]; simpl; [reflexivity|].
  rewrite insert_sorted_perm. now constructor.
Qed.

Lemma insert_sorted_strongly (x : error_row) (l : list error_row) :
  StronglySorted key_order l -> StronglySorted key_order (insert_sorted x l).
Proof.
  induction l as [|y l IH]; intros Hs; simpl.
  - constructor; constructor.
  - inversion Hs as [|? ? Hl Hy]; subst.
    destruct (key_le x y) eqn:E.
    + constructor; [exact Hs|]. constructor; [exact E|].
      eapply Forall_impl; [|exact Hy]. intros z Hz.
      eapply key_le_trans; eassumption.
    + constructor; [now apply IH|].
      eapply Permutation_Forall; [symmetry; apply insert_sorted_perm|].
      constructor; [|exact Hy].
      destruct (key_le_total x y) as [H|H]; [congruence | exact H].
Qed.

Lemma sorted_strongly (l : list error_row) : StronglySorted key_order (sorted l).
Proof.
  induction l as [|x l IH]; simpl; [constructor|].
  now apply insert_sorted_strongly.
Qed.

Lemma filter_length_perm {A : Type} (f : A -> bool) (l l' : list A) :
  Permutation l l' -> List.length (filter f l) = List.length (filter f l').
Proof.
  induction 1 as [|x l l' _ IH|x y l|l l' l'' _ IH1 _ IH2]; simpl.
  - reflexivity.
  - destruct (f x); simpl; now rewrite IH.
  - destruct (f x), (f y); reflexivity.
  - now rewrite IH1.
Qed.

Lemma count_of_sorted (kind : option string) (reason : string) (l : list error_row) :
  count_of kind reason (sorted l) = count_of kind reason l.
Proof. apply filter_length_perm, sorted_perm. Qed.

Lemma sorted_unique (l l' : list error_row) :
  Permutation l l' ->
  StronglySorted key_order l -> StronglySorted key_order l' ->
  (forall a b, In a l -> In b l -> sort_key a = sort_key b -> a = b) ->
  l = l'.
Proof.
  revert l'. induction l as [|x xs IH]; intros l' Hp Hs Hs' Hk.
  - apply Permutation_nil in Hp. now subst.
  - destruct l' as [|y ys].
    + symmetry in Hp. apply Permutation_nil in Hp. discriminate.
    + inversion Hs as [|? ? Hxs Hx]; subst.
      inversion Hs' as [|? ? Hys Hy]; subst.
      assert (Exy : x = y).
      { assert (Hyl : In y (x :: xs))
          by (eapply Permutation_in; [symmetry; exact Hp | now left]).
        assert (Hxl : In x (y :: ys))
          by (eapply Permutation_in; [exact Hp | now left]).
        destruct Hyl as [->|Hyl]; [reflexivity|].
        destruct Hxl as [->|Hxl]; [reflexivity|].
        rewrite Forall_forall in Hx, Hy.
        apply Hk; [now left | now right |].
        apply key_le_antisym; [now apply Hx | now apply Hy]. }
      subst y. f_equal. apply IH.
      * eapply Permutation_cons_inv. exact Hp.
      * exact Hxs.
      * exact Hys.
      * intros a b Ha Hb. apply Hk; now right.
Qed.

(** ** Source positions *)

Lemma normalize_from_excel_row (i : nat) (rs : list raw_row) (r : row) :
  In r (normalize_from i rs) -> i + 2 <= excel_row r.
Proof.
  revert i. induction rs as [|x rs IH]; intros i; simpl; [contradiction|].
  intros [<-|H]; [simpl; lia|]. apply IH in H. lia.
Qed.

Lemma normalize_from_position (i : nat) (rs : list raw_row) (r r' : row) :
  In r (normalize_from i rs) -> In r' (normalize_from i rs) ->
  excel_row r = excel_row r' -> r = r'.
Proof.
  revert i. induction rs as [|x rs IH]; intros i; simpl; [contradiction|].
  intros [<-|H] [<-|H'] E.
  - reflexivity.
  - apply normalize_from_excel_row in H'. simpl in E. lia.
  - apply normalize_from_excel_row in H. simpl in E. lia.
  - eapply IH; eassumption.
Qed.

Lemma ingest_frame (input : excel_file) (df_raw : list row) :
  ingest input = inr df_raw -> exists rs, df_raw = df_raw_of rs.
Proof.
  unfold ingest. destruct input as [|sheets]; [discriminate|].
  destruct (find_sheet "data" sheets) as [sh|]; [|discriminate].
  destruct (forallb (has_column sh) required_columns); [|discriminate].
  intros [= <-]. now exists (records sh).
Qed.

Lemma in_drop_blank (df_raw : list row) (r : row) :
  In r (drop_blank df_raw) <-> In r df_raw /\ all_blank r = false.
Proof. unfold drop_blank. now rewrite filter_In, negb_true_iff. Qed.

(** ** Scanning an emitted document *)

Lemma append_assoc (a b c : string) : ((a ++ b) ++ c = a ++ (b ++ c))%string.
Proof. induction a as [|x a IH]; simpl; [reflexivity | now rewrite IH]. Qed.

Lemma append_nil_r (a : string) : (a ++ "")%string = a.
Proof. induction a as [|x a IH]; simpl; [reflexivity | now rewrite IH]. Qed.

Lemma snoc_append (v : string) (c : ascii) (x : string) :
  (snoc v c ++ x)%string = (v ++ String c x)%string.
Proof. unfold snoc. now rewrite append_assoc. Qed.

Lemma scan_value (x k v rest : string) :
  scan (InValue k v) (PyStr.replace_char "'" "''" x ++ String "'" rest)
  = scan (QuoteSeen k (v ++ x)) rest.
Proof.
  revert v. induction x as [|c x IH]; intros v.
  - simpl. now rewrite append_nil_r.
  - cbn [PyStr.replace_char]. destruct (Ascii.eqb c "'") eqn:Ec.
    + apply Ascii.eqb_eq in Ec. subst c. cbn [append scan Ascii.eqb Bool.eqb].
      now rewrite IH, snoc_append.
    + cbn [append scan]. rewrite Ec. now rewrite IH, snoc_append.
Qed.

Lemma scan_trailing (cm rest : string) :
  has_char LF cm = false ->
  scan Trailing (cm ++ String LF rest) = scan LineStart rest.
Proof.
  induction cm as [|c cm IH]; intros H.
  - reflexivity.
  - cbn [has_char] in H. apply orb_false_iff in H as [Hc H].
    cbn [append scan]. rewrite Hc. now apply IH.
Qed.

Lemma scan_annotation (k v cm rest : string) :
  has_char LF cm = false ->
  scan (QuoteSeen k v)
       ((if PyStr.truthy cm then " #" ++ cm else "") ++ String LF rest)
  = option_map (cons (Pair k v)) (scan LineStart rest).
Proof.
  intros H. destruct (PyStr.truthy cm).
  - rewrite append_assoc. cbn [append scan Ascii.eqb Bool.eqb LF].
    f_equal. now apply scan_trailing.
  - reflexivity.
Qed.

Lemma emit_yaml_line_eq (key value : string) (indent : nat) (cm : string) :
  emit_yaml_line key value indent cm
  = (PyStr.spaces indent ++ key ++ ":'" ++ PyStr.replace_char "'" "''" value
     ++ String "'" ((if PyStr.truthy cm then " #" ++ cm else "") ++ String LF ""))%string.
Proof.
  unfold emit_yaml_line. destruct (PyStr.truthy cm);
    rewrite ?append_assoc; cbn [append]; repeat (f_equal; rewrite ?append_assoc; cbn [append]).
Qed.

Lemma join_app (l1 l2 : list string) : join (l1 ++ l2) = (join l1 ++ join l2)%string.
Proof.
  unfold join. induction l1 as [|x l1 IH]; simpl; [reflexivity|].
  now rewrite IH, append_assoc.
Qed.

Lemma option_map_app {A : Type} (l1 l2 : list A) (o : option (list A)) :
  option_map (app l1) (option_map (app l2) o) = option_map (app (l1 ++ l2)) o.
Proof. destruct o; simpl; [now rewrite app_assoc | reflexivity]. Qed.

Lemma field_ok_accountNumber : field_ok "accountNumber".
Proof. split; reflexivity. Qed.

Lemma field_ok_nzbn : field_ok "nzbn".
Proof. split; reflexivity. Qed.

Lemma scan_paymentLimit (s : string) :
  scan LineStart (PyStr.spaces 6 ++ "paymentLimit" ++ ":'" ++ s)
  = scan (InValue "paymentLimit" "") s.
Proof. reflexivity. Qed.

Lemma append_cons (c : ascii) (x y : string) :
  (String c x ++ y)%string = String c (x ++ y).
Proof. reflexivity. Qed.

Lemma scan_line_end (k v s : string) :
  scan (QuoteSeen k v) (String LF s) = option_map (cons (Pair k v)) (scan LineStart s).
Proof. reflexivity. Qed.

Lemma scan_entry (field : string) (key : row -> string) (r : row) (rest : string) :
  field_ok field ->
  has_char LF (comment r) = false ->
  scan LineStart (join (emit_entry field key r) ++ rest)
  = if PyStr.truthy (key r)
    then option_map (app (pair_tokens (entry_pairs field key r))) (scan LineStart rest)
    else scan LineStart rest.
Proof.
  intros [Hstrip Hscan] Hcm. unfold emit_entry.
  destruct (PyStr.truthy (key r)); [|reflexivity].
  cbn [negb join fold_right]. rewrite !emit_yaml_line_eq.
  rewrite Hstrip. rewrite !append_assoc.
  rewrite Hscan, (append_cons "'"), scan_value.
  change (PyStr.truthy "") with false. cbn iota.
  change (("" ++ String LF "") ++ ?z)%string with (String LF z).
  rewrite scan_line_end, scan_paymentLimit, (append_cons "'"), scan_value.
  rewrite append_assoc.
  change (String LF "" ++ "" ++ rest)%string with (String LF rest).
  rewrite scan_annotation by exact Hcm.
  destruct (scan LineStart rest); reflexivity.
Qed.

Lemma option_map_nil {A : Type} (o : option (list A)) : option_map (app []) o = o.
Proof. now destruct o. Qed.

Lemma scan_entries (field : string) (key : row -> string) (rows : list row) (rest : string) :
  field_ok field ->
  (forall r, In r rows -> has_char LF (comment r) = false) ->
  scan LineStart (join (flat_map (emit_entry field key) rows) ++ rest)
  = option_map
      (app (pair_tokens (flat_map (entry_pairs field key) (emitted key rows))))
      (scan LineStart rest).
Proof.
  intros Hf. induction rows as [|r rows IH]; intros Hcm.
  - cbn. now rewrite option_map_nil.
  - cbn [flat_map]. rewrite join_app, append_assoc.
    rewrite scan_entry by (exact Hf || (apply Hcm; now left)).
    rewrite IH by (intros r' Hr'; apply Hcm; now right).
    unfold emitted. cbn [filter]. fold (emitted key rows).
    destruct (PyStr.truthy (key r)); [|reflexivity].
    cbn [flat_map]. unfold pair_tokens. rewrite map_app.
    now rewrite option_map_app.
Qed.

Lemma scan_header_cred (s : string) :
  scan LineStart (("creditorAccounts:" ++ String "010" "") ++ s)
  = option_map (cons (Header "creditorAccounts")) (scan LineStart s).
Proof. reflexivity. Qed.

Lemma scan_header_fourth (s : string) :
  scan LineStart (("fourthParties:" ++ String "010" "") ++ s)
  = option_map (cons (Header "fourthParties")) (scan LineStart s).
Proof. reflexivity. Qed.

Lemma leading_pairs_tokens (kvs : list (string * string)) (rest : list token) :
  leading_pairs (pair_tokens kvs ++ rest) = kvs ++ leading_pairs rest.
Proof.
  induction kvs as [|[k v] kvs IH]; [reflexivity|]. cbn. now rewrite <- IH.
Qed.

Lemma sections_tokens (kvs : list (string * string)) (rest : list token) :
  sections (pair_tokens kvs ++ rest) = sections rest.
Proof. induction kvs as [|[k v] kvs IH]; [reflexivity | exact IH]. Qed.

Lemma parse_emitted (cred fourth : list row) :
  (forall r, In r cred -> has_char LF (comment r) = false) ->
  (forall r, In r fourth -> has_char LF (comment r) = false) ->
  parse_document (join (emit_lines cred fourth))
  = Some [("creditorAccounts",
           flat_map (entry_pairs "accountNumber" accountNumber) (emitted accountNumber cred));
          ("fourthParties",
           flat_map (entry_pairs "nzbn" nzbn) (emitted nzbn fourth))].
Proof.
  intros Hc Hf. unfold parse_document, emit_lines.
  rewrite !join_app. cbn [join fold_right]. rewrite !append_nil_r.
  rewrite scan_header_cred.
  rewrite (scan_entries _ _ _ _ field_ok_accountNumber Hc).
  rewrite scan_header_fourth.
  rewrite <- (append_nil_r (join (flat_map (emit_entry "nzbn" nzbn) fourth))).
  rewrite (scan_entries _ _ _ _ field_ok_nzbn Hf).
  cbn [scan option_map sections].
  rewrite leading_pairs_tokens, sections_tokens. cbn [leading_pairs sections].
  rewrite ?leading_pairs_tokens, ?sections_tokens, ?app_nil_r. cbn [leading_pairs sections].
  rewrite ?app_nil_r. reflexivity.
Qed.

Lemma in_drop_duplicates_from (key : row -> string) (seen : list string)
    (frame : list row) (r : row) :
  In r (drop_duplicates_from key seen frame) -> In r frame.
Proof.
  revert seen. induction frame as [|x frame IH]; intros seen; simpl; [auto|].
  destruct (existsb _ seen).
  - intros H. right. eapply IH, H.
  - intros [H|H]; [now left | right; eapply IH, H].
Qed.

Lemma in_dedupe_cred (args : config) (frame : list row) (r : row) :
  In r (dedupe_cred args frame) -> In r frame.
Proof.
  unfold dedupe_cred, drop_duplicates.
  destruct (dedupe_accounts args && negb (empty frame)); [|auto].
  apply in_drop_duplicates_from.
Qed.

Lemma in_dedupe_fourth (args : config) (frame : list row) (r : row) :
  In r (dedupe_fourth args frame) -> In r frame.
Proof.
  unfold dedupe_fourth, drop_duplicates.
  destruct (dedupe_nzbn args && negb (empty frame)); [|auto].
  apply in_drop_duplicates_from.
Qed.

Section Closed_form.
Variable float_of_str : string -> option spec_float.
Variable str_of_float : spec_float -> string.

Local Abbreviation validate_ := (validate float_of_str str_of_float).
Local Abbreviation summarize_ := (summarize float_of_str str_of_float).
Local Abbreviation process_ := (process float_of_str str_of_float).
Local Abbreviation main_ := (main float_of_str str_of_float).
Local Abbreviation violations_ := (violations float_of_str str_of_float).
Local Abbreviation numeric_errors_ := (numeric_errors float_of_str str_of_float).
Local Abbreviation violation_ := (violation float_of_str str_of_float).
Local Abbreviation summary_from_counts_ := (summary_from_counts str_of_float).

Lemma validate_eq (args : config) (df : list row) :
  validate_ args df =
    map (error_of reason_bad_type) (select_type "" df)
    ++ map (error_of reason_bad_nzbn) (bad_nzbn_rows (fourth_of df))
    ++ map (error_of reason_dup_nzbn) (duplicated_rows nzbn (fourth_of df))
    ++ map (error_of reason_dup_acct) (duplicated_rows accountNumber (cred_of df))
    ++ numeric_errors_ args (max_fourth args) (fourth_of df)
    ++ numeric_errors_ args (max_creditor args) (cred_of df).
Proof.
  unfold validate, numeric_errors.
  rewrite !add_if_any_app.
  destruct (fourth_of df) as [|f fs] eqn:Ef, (cred_of df) as [|c cs] eqn:Ec;
    destruct (require_numeric_paymentlimit args), (max_fourth args), (max_creditor args);
    cbn [empty negb orb is_some bad_nzbn_rows duplicated_rows bad_num_rows over_rows
         filter map app];
    rewrite ?add_if_any_app, ?app_nil_r, <- ?app_assoc; reflexivity.
Qed.

Lemma main_failed_iff (args : config) (input : excel_file) :
  violations_ args input <> [] <->
  exists summary detailed, main_ args input = ValidationFailed summary detailed.
Proof.
  unfold violations, main, process.
  destruct (ingest input) as [status|df_raw].
  - split; [congruence | intros (s & d & H); discriminate].
  - destruct (validate_ args (drop_blank df_raw)) as [|e es].
    + split; [congruence | intros (s & d & H); discriminate].
    + split; [eauto | discriminate].
Qed.

Lemma main_failed (args : config) (input : excel_file) :
  violations_ args input <> [] ->
  main_ args input =
    ValidationFailed
      (match ingest input with
       | inr df_raw => summarize_ args (drop_blank df_raw)
       | inl _ => []
       end)
      (sorted (violations_ args input)).
Proof.
  unfold violations, main, process.
  destruct (ingest input) as [status|df_raw]; [congruence|].
  destruct (validate_ args (drop_blank df_raw)); [congruence | reflexivity].
Qed.

Lemma ingest_status (input : excel_file) (status : nat) :
  ingest input = inl status -> status = 1 \/ status = 2.
Proof.
  unfold ingest. destruct input as [|sheets]; [intros [= <-]; now left|].
  destruct (find_sheet "data" sheets) as [sh|]; [|intros [= <-]; now right].
  destruct (forallb (has_column sh) required_columns); [discriminate|].
  intros [= <-]; now right.
Qed.

(** C1: when the list of violations of a run is not empty, the run writes
    no output document, ends with the status 3 of a validation failure,
    and no ingestion error ends with that status. *)
Theorem violations_suppress_document (args : config) (input : excel_file) :
  violations_ args input <> [] ->
  output_written (main_ args input) = None
  /\ exit_status (main_ args input) = 3
  /\ (forall input' status,
        main_ args input' = IngestionError status -> status <> 3).
Proof.
  intros Hv. rewrite (main_failed _ _ Hv). repeat split.
  intros input' status. unfold main.
  destruct (ingest input') as [st|df_raw] eqn:Ei.
  - intros [= <-]. destruct (ingest_status _ _ Ei); lia.
  - unfold process.
    destruct (validate_ args (drop_blank df_raw)); discriminate.
Qed.

(** C8: when the list of violations is not empty, the outcome of the run
    (failure, summary and detailed list) is the same for every setting of
    the two de-duplication flags. *)
Theorem dedupe_flags_inert_on_failure
    (args : config) (input : excel_file) (accounts nzbn_flag : bool) :
  violations_ args input <> [] ->
  violations_ (with_dedupe accounts nzbn_flag args) input = violations_ args input
  /\ main_ (with_dedupe accounts nzbn_flag args) input = main_ args input
  /\ exit_status (main_ (with_dedupe accounts nzbn_flag args) input) = 3.
Proof.
  intros Hv.
  assert (E : violations_ (with_dedupe accounts nzbn_flag args) input
              = violations_ args input) by (destruct args; reflexivity).
  split; [exact E|].
  assert (M : main_ (with_dedupe accounts nzbn_flag args) input = main_ args input).
  { rewrite (main_failed args input Hv).
    rewrite main_failed by (rewrite E; exact Hv).
    rewrite E. destruct args; reflexivity. }
  split; [exact M|].
  rewrite M, (main_failed _ _ Hv). reflexivity.
Qed.

(** C9: the two fail-on-duplicate flags are never read: two runs that
    differ only in them have the same violations, the same outcome
    (reports or document) and the same exit status. *)
Theorem fail_on_duplicate_flags_unread
    (args : config) (input : excel_file) (account nzbn_flag : bool) :
  violations_ (with_fail_on_duplicate account nzbn_flag args) input
    = violations_ args input
  /\ main_ (with_fail_on_duplicate account nzbn_flag args) input = main_ args input
  /\ output_written (main_ (with_fail_on_duplicate account nzbn_flag args) input)
     = output_written (main_ args input)
  /\ exit_status (main_ (with_fail_on_duplicate account nzbn_flag args) input)
     = exit_status (main_ args input).
Proof.
  assert (M : main_ (with_fail_on_duplicate account nzbn_flag args) input
              = main_ args input) by (destruct args; reflexivity).
  rewrite M. repeat split.
Qed.

(** ** Which violations a run records *)

Lemma in_numeric_errors (args : config) (ceiling : option spec_float)
    (frame : list row) (e : error_row) :
  In e (numeric_errors_ args ceiling frame) <->
  (exists r, e = error_of reason_non_numeric r
             /\ require_numeric_paymentlimit args = true
             /\ In r frame /\ isna (pl_num float_of_str r) = true)
  \/ (exists r m, e = error_of (reason_over str_of_float m) r
                  /\ ceiling = Some m /\ In r frame
                  /\ isna (pl_num float_of_str r) = false
                  /\ gt_max (pl_num float_of_str r) m = true).
Proof.
  unfold numeric_errors, bad_num_rows, over_rows. rewrite in_app_iff.
  split.
  - intros [H|H].
    + destruct (require_numeric_paymentlimit args); [|contradiction].
      apply in_map_iff in H as (r & <- & Hr). apply filter_In in Hr as [Hr Hna].
      left. exists r. auto.
    + destruct ceiling as [m|]; [|contradiction].
      apply in_map_iff in H as (r & <- & Hr). apply filter_In in Hr as [Hr Hc].
      apply andb_true_iff in Hc as [Hna Hgt]. apply negb_true_iff in Hna.
      right. exists r, m. auto.
  - intros [(r & -> & Hreq & Hr & Hna)|(r & m & -> & -> & Hr & Hna & Hgt)].
    + left. rewrite Hreq. apply in_map, filter_In. auto.
    + right. apply in_map, filter_In. split; [exact Hr|].
      now rewrite Hna, Hgt.
Qed.

Lemma duplicated_mask_iff (key : row -> string) (frame : list row) (r : row) :
  duplicated_mask key frame r = true <-> 2 <= occurrences key (key r) frame.
Proof. unfold duplicated_mask. apply Nat.leb_le. Qed.

Lemma in_validate_iff (args : config) (df : list row) (e : error_row) :
  In e (validate_ args df) <-> violation_ args df e.
Proof.
  rewrite validate_eq, !in_app_iff, !in_numeric_errors.
  unfold bad_nzbn_rows, duplicated_rows, select_type at 1.
  rewrite !in_map_iff. split.
  - intros [H|[H|[H|[H|[[H|H]|[H|H]]]]]].
    + destruct H as (r & <- & Hr). apply filter_In in Hr as [Hr Ht].
      apply String.eqb_eq in Ht. now constructor.
    + destruct H as (r & <- & Hr). apply filter_In in Hr as [Hr Hm].
      apply negb_true_iff in Hm. now constructor.
    + destruct H as (r & <- & Hr). apply filter_In in Hr as [Hr Hm].
      apply duplicated_mask_iff in Hm. now constructor.
    + destruct H as (r & <- & Hr). apply filter_In in Hr as [Hr Hm].
      apply duplicated_mask_iff in Hm. now constructor.
    + destruct H as (r & -> & ? & ? & ?). now apply V_non_numeric_fourth.
    + destruct H as (r & m & -> & ? & ? & ? & ?). now apply V_over_fourth.
    + destruct H as (r & -> & ? & ? & ?). now apply V_non_numeric_cred.
    + destruct H as (r & m & -> & ? & ? & ? & ?). now apply V_over_cred.
  - intros [r Hr Ht|r Hr Hm|r Hr Hm|r Hr Hm|r Hq Hr Hna|r m Hc Hr Hna Hgt
           |r Hq Hr Hna|r m Hc Hr Hna Hgt].
    + left. exists r. split; [reflexivity|]. apply filter_In.
      split; [exact Hr|]. now apply String.eqb_eq.
    + right; left. exists r. split; [reflexivity|]. apply filter_In.
      split; [exact Hr|]. now apply negb_true_iff.
    + right; right; left. exists r. split; [reflexivity|]. apply filter_In.
      split; [exact Hr|]. now apply duplicated_mask_iff.
    + right; right; right; left. exists r. split; [reflexivity|]. apply filter_In.
      split; [exact Hr|]. now apply duplicated_mask_iff.
    + right; right; right; right; left; left. exists r. auto.
    + right; right; right; right; left; right. exists r, m. auto.
    + right; right; right; right; right; left. exists r. auto.
    + right; right; right; right; right; right. exists r, m. auto.
Qed.

Lemma over_iff (r : row) (m : spec_float) :
  isna (pl_num float_of_str r) = false /\ gt_max (pl_num float_of_str r) m = true <->
  exists v, to_number_or_none float_of_str (paymentLimit r) = Some v
            /\ v <> S754_nan /\ SFltb m v = true.
Proof.
  unfold pl_num. destruct (to_number_or_none float_of_str (paymentLimit r)) as [v|]; simpl.
  - split.
    + intros [Hna Hgt]. exists v. repeat split; [|exact Hgt].
      intros ->. discriminate.
    + intros (v' & [= <-] & Hn & Hgt). split; [|exact Hgt].
      destruct v; congruence.
  - split; [intros [_ H]; discriminate | intros (v & H & _); discriminate].
Qed.

(** Reasons of two different checks never coincide, whatever text the
    ceiling is printed as. *)
Ltac reason_clash :=
  match goal with
  | H : error_of _ _ = error_of _ _ |- _ =>
      apply error_of_inv in H; destruct H as (H & _);
      unfold reason_over, reason_bad_type, reason_bad_nzbn, reason_dup_nzbn,
        reason_dup_acct, reason_non_numeric in H;
      simpl in H; discriminate H
  end.

Ltac kind_clash df :=
  match goal with
  | H : error_of _ ?a = error_of _ ?b, Ha : In ?a (fourth_of df), Hb : In ?b (cred_of df) |- _ =>
      apply error_of_inv in H; destruct H as (_ & _ & _ & _ & H);
      rewrite (err_type_fourth _ df a Ha), (err_type_cred _ df b Hb) in H; discriminate H
  | H : error_of _ ?a = error_of _ ?b, Ha : In ?a (cred_of df), Hb : In ?b (fourth_of df) |- _ =>
      apply error_of_inv in H; destruct H as (_ & _ & _ & _ & H);
      rewrite (err_type_cred _ df a Ha), (err_type_fourth _ df b Hb) in H; discriminate H
  end.

Lemma pl_num_ext (r r' : row) :
  paymentLimit r = paymentLimit r' -> pl_num float_of_str r = pl_num float_of_str r'.
Proof. unfold pl_num. now intros ->. Qed.

Lemma over_fourth_iff (args : config) (df : list row) (r : row) (m : spec_float) :
  max_fourth args = Some m -> In r (fourth_of df) ->
  (In (error_of (reason_over str_of_float m) r) (validate_ args df) <->
   exists v, to_number_or_none float_of_str (paymentLimit r) = Some v
             /\ v <> S754_nan /\ SFltb m v = true).
Proof.
  intros Hm Hr. rewrite in_validate_iff, <- over_iff. split.
  - intros H. remember (error_of (reason_over str_of_float m) r) as e eqn:E.
    destruct H as [r' Hr' Ht|r' Hr' Hf|r' Hr' Hd|r' Hr' Hd
                  |r' Hq Hr' Hna|r' m' Hc Hr' Hna Hgt
                  |r' Hq Hr' Hna|r' m' Hc Hr' Hna Hgt];
      try reason_clash.
    + rewrite Hm in Hc. injection Hc as <-.
      apply error_of_inv in E as (_ & _ & _ & E & _).
      rewrite <- (pl_num_ext _ _ E). auto.
    + kind_clash df.
  - intros [Hna Hgt]. now apply V_over_fourth.
Qed.

Lemma over_cred_iff (args : config) (df : list row) (r : row) (m : spec_float) :
  max_creditor args = Some m -> In r (cred_of df) ->
  (In (error_of (reason_over str_of_float m) r) (validate_ args df) <->
   exists v, to_number_or_none float_of_str (paymentLimit r) = Some v
             /\ v <> S754_nan /\ SFltb m v = true).
Proof.
  intros Hm Hr. rewrite in_validate_iff, <- over_iff. split.
  - intros H. remember (error_of (reason_over str_of_float m) r) as e eqn:E.
    destruct H as [r' Hr' Ht|r' Hr' Hf|r' Hr' Hd|r' Hr' Hd
                  |r' Hq Hr' Hna|r' m' Hc Hr' Hna Hgt
                  |r' Hq Hr' Hna|r' m' Hc Hr' Hna Hgt];
      try reason_clash.
    + kind_clash df.
    + rewrite Hm in Hc. injection Hc as <-.
      apply error_of_inv in E as (_ & _ & _ & E & _).
      rewrite <- (pl_num_ext _ _ E). auto.
  - intros [Hna Hgt]. now apply V_over_cred.
Qed.

(** ** Counting the entries of a category *)

Section Counting.
Variable kind : option string.
Variable reason : string.
Variable q : error_row -> bool.

Local Abbreviation P := (selects kind reason q).
Local Abbreviation block_count_ := (block_count kind reason q).
Local Abbreviation numeric_count_ := (numeric_count float_of_str str_of_float kind reason q).

Lemma block_count_typed (t reason' : string) (rows : list row) :
  t <> "" -> (forall r, In r rows -> type_norm r = t) ->
  List.length (filter P (map (error_of reason') rows)) = block_count_ t reason' rows.
Proof.
  intros Ht Hall. unfold block_count.
  induction rows as [|r rows IH].
  - simpl. now destruct (_ && _).
  - assert (Hr : type_norm r = t) by (apply Hall; now left).
    assert (IH' := IH (fun r' H => Hall r' (or_intror H))). clear IH.
    cbn [map filter]. unfold selects at 1, in_category.
    rewrite err_type_typed by (rewrite Hr; exact Ht). rewrite Hr.
    cbn [err_reason error_of].
    destruct ((reason' =? reason)%string && kind_match kind t);
      [destruct (q (error_of reason' r))|]; cbn [andb List.length]; now rewrite IH'.
Qed.

Lemma block_count_other (reason' : string) (rows : list row) :
  (reason' =? reason)%string = false ->
  List.length (filter P (map (error_of reason') rows)) = 0.
Proof.
  intros Hne. induction rows as [|r rows IH]; [reflexivity|].
  cbn [map filter]. unfold selects at 1, in_category. cbn [err_reason error_of].
  now rewrite Hne.
Qed.

Lemma numeric_count_typed (args : config) (ceiling : option spec_float)
    (t : string) (frame : list row) :
  t <> "" -> (forall r, In r frame -> type_norm r = t) ->
  List.length (filter P (numeric_errors_ args ceiling frame))
  = numeric_count_ args ceiling t frame.
Proof.
  intros Ht Hall. unfold numeric_errors, numeric_count.
  rewrite filter_app, length_app. f_equal.
  - destruct (require_numeric_paymentlimit args); [|reflexivity].
    apply block_count_typed; [exact Ht|].
    intros r Hr. apply Hall. unfold bad_num_rows in Hr.
    now apply filter_In in Hr.
  - destruct ceiling as [m|]; [|reflexivity].
    apply block_count_typed; [exact Ht|].
    intros r Hr. apply Hall. unfold over_rows in Hr.
    now apply filter_In in Hr.
Qed.

Lemma count_validate (args : config) (df : list row) :
  List.length (filter P (validate_ args df))
  = List.length (filter P (map (error_of reason_bad_type) (select_type "" df)))
    + (block_count_ "fourthParty" reason_bad_nzbn (bad_nzbn_rows (fourth_of df))
    + (block_count_ "fourthParty" reason_dup_nzbn (duplicated_rows nzbn (fourth_of df))
    + (block_count_ "creditorAccount" reason_dup_acct
         (duplicated_rows accountNumber (cred_of df))
    + (numeric_count_ args (max_fourth args) "fourthParty" (fourth_of df)
    + numeric_count_ args (max_creditor args) "creditorAccount" (cred_of df))))).
Proof.
  rewrite validate_eq, !filter_app, !length_app.
  assert (Hf : forall r, In r (fourth_of df) -> type_norm r = "fourthParty")
    by (intros r Hr; now apply in_fourth_of in Hr).
  assert (Hc : forall r, In r (cred_of df) -> type_norm r = "creditorAccount")
    by (intros r Hr; now apply in_cred_of in Hr).
  rewrite (numeric_count_typed args _ "fourthParty") by (discriminate || assumption).
  rewrite (numeric_count_typed args _ "creditorAccount") by (discriminate || assumption).
  repeat f_equal.
  - apply block_count_typed; [discriminate|].
    intros r Hr. apply Hf. unfold bad_nzbn_rows in Hr. now apply filter_In in Hr.
  - apply block_count_typed; [discriminate|].
    intros r Hr. apply Hf. unfold duplicated_rows in Hr. now apply filter_In in Hr.
  - apply block_count_typed; [discriminate|].
    intros r Hr. apply Hc. unfold duplicated_rows in Hr. now apply filter_In in Hr.
Qed.

End Counting.

Lemma block_count_bad_type (kind : option string) (reason : string)
    (q : error_row -> bool) (rows : list row) :
  (reason_bad_type =? reason)%string = false ->
  List.length (filter (selects kind reason q) (map (error_of reason_bad_type) rows)) = 0.
Proof. apply block_count_other. Qed.

Lemma filter_filter_implied {A : Type} (f g : A -> bool) (l : list A) :
  (forall x, In x l -> f x = true -> g x = true) ->
  filter f (filter g l) = filter f l.
Proof.
  induction l as [|x l IH]; intros H; [reflexivity|]. simpl.
  assert (IH' : filter f (filter g l) = filter f l)
    by (apply IH; intros y Hy; apply H; now right).
  destruct (g x) eqn:Eg; simpl.
  - now rewrite IH'.
  - destruct (f x) eqn:Ef; [|exact IH'].
    rewrite (H x (or_introl eq_refl) Ef) in Eg. discriminate.
Qed.

Lemma occurrences_duplicated (key : row -> string) (k : string) (frame : list row) :
  2 <= occurrences key k frame ->
  List.length (filter (fun r => (key r =? k)%string) (duplicated_rows key frame))
  = occurrences key k frame.
Proof.
  intros H. unfold duplicated_rows. rewrite filter_filter_implied; [reflexivity|].
  intros r _ Hr. apply String.eqb_eq in Hr. subst k.
  now apply duplicated_mask_iff.
Qed.

Ltac count_blocks :=
  unfold numeric_count, block_count, reason_over, reason_bad_type, reason_bad_nzbn,
    reason_dup_nzbn, reason_dup_acct, reason_non_numeric, kind_match;
  cbn [String.eqb Ascii.eqb Bool.eqb append andb].

(** C3: a key that occurs [N >= 2] times among the rows of a kind gets
    exactly [N] duplicate violations of that kind, one per occurrence: the
    fourth-party rows are keyed by the identifier without its whitespace,
    the creditor-account rows by the identifier as it is. *)
Theorem duplicates_all_flagged
    (args : config) (input : excel_file) (df_raw : list row) (k : string) :
  ingest input = inr df_raw ->
  (2 <= occurrences nzbn k (fourth_of (drop_blank df_raw)) ->
   List.length
     (filter (selects (Some "fourthParty") reason_dup_nzbn (keyed PyStr.re_sub_spaces k))
             (violations_ args input))
   = occurrences nzbn k (fourth_of (drop_blank df_raw)))
  /\ (2 <= occurrences accountNumber k (cred_of (drop_blank df_raw)) ->
      List.length
        (filter (selects (Some "creditorAccount") reason_dup_acct (keyed (fun i => i) k))
                (violations_ args input))
      = occurrences accountNumber k (cred_of (drop_blank df_raw))).
Proof.
  intros Hi. unfold violations. rewrite Hi. split; intros HN.
  - rewrite count_validate, block_count_bad_type by reflexivity.
    count_blocks.
    destruct (require_numeric_paymentlimit args), (max_fourth args), (max_creditor args);
      cbn; rewrite ?Nat.add_0_r; now apply occurrences_duplicated.
  - rewrite count_validate, block_count_bad_type by reflexivity.
    count_blocks.
    destruct (require_numeric_paymentlimit args), (max_fourth args), (max_creditor args);
      cbn; rewrite ?Nat.add_0_r; now apply occurrences_duplicated.
Qed.

Lemma violations_ingested (args : config) (input : excel_file) (df_raw : list row) :
  ingest input = inr df_raw ->
  violations_ args input = validate_ args (drop_blank df_raw).
Proof. intros H. unfold violations. now rewrite H. Qed.

(** C4: with a ceiling [m] configured for the kind of the row [r], the
    violation "paymentLimit > m" is recorded for [r] exactly when the limit
    text parses to a number strictly greater than [m]; a parsed value equal
    to [m] is accepted, and the reason ends with the text of [m]. *)
Theorem ceiling_is_inclusive
    (args : config) (input : excel_file) (df_raw : list row) (r : row) (m : spec_float) :
  ingest input = inr df_raw ->
  (max_fourth args = Some m /\ In r (fourth_of (drop_blank df_raw)))
  \/ (max_creditor args = Some m /\ In r (cred_of (drop_blank df_raw))) ->
  (In (error_of (reason_over str_of_float m) r) (violations_ args input) <->
   exists v, to_number_or_none float_of_str (paymentLimit r) = Some v
             /\ v <> S754_nan /\ SFltb m v = true)
  /\ (forall v, to_number_or_none float_of_str (paymentLimit r) = Some v ->
                SFeqb v m = true ->
                ~ In (error_of (reason_over str_of_float m) r) (violations_ args input))
  /\ err_reason (error_of (reason_over str_of_float m) r)
     = ("paymentLimit > " ++ str_of_float m)%string.
Proof.
  intros Hi Hk. rewrite (violations_ingested _ _ _ Hi).
  assert (Hiff : In (error_of (reason_over str_of_float m) r)
                    (validate_ args (drop_blank df_raw)) <->
                 exists v, to_number_or_none float_of_str (paymentLimit r) = Some v
                           /\ v <> S754_nan /\ SFltb m v = true).
  { destruct Hk as [[Hm Hr]|[Hm Hr]];
      [now apply over_fourth_iff | now apply over_cred_iff]. }
  split; [exact Hiff|]. split; [|reflexivity].
  intros v Hv Heq Hin. apply Hiff in Hin as (v' & Hv' & _ & Hgt).
  rewrite Hv in Hv'. injection Hv' as <-.
  rewrite (SFeqb_not_gt _ _ Heq) in Hgt. discriminate.
Qed.

Lemma nzbn_ext (r r' : row) : id r = id r' -> nzbn r = nzbn r'.
Proof. unfold nzbn. now intros ->. Qed.

(** C5: for a fourth-party row the violation "invalid NZBN" is recorded
    exactly when the identifier without its whitespace is not a run of 13
    digits, and a row that is malformed and duplicated gets both the format
    and the duplicate violation. *)
Theorem nzbn_format_checked
    (args : config) (input : excel_file) (df_raw : list row) (r : row) :
  ingest input = inr df_raw ->
  In r (fourth_of (drop_blank df_raw)) ->
  (In (error_of reason_bad_nzbn r) (violations_ args input) <->
   PyStr.fullmatch_digits 13 (PyStr.re_sub_spaces (id r)) = false)
  /\ (PyStr.fullmatch_digits 13 (PyStr.re_sub_spaces (id r)) = false ->
      2 <= occurrences nzbn (nzbn r) (fourth_of (drop_blank df_raw)) ->
      In (error_of reason_bad_nzbn r) (violations_ args input)
      /\ In (error_of reason_dup_nzbn r) (violations_ args input)).
Proof.
  intros Hi Hr. rewrite (violations_ingested _ _ _ Hi), !in_validate_iff.
  split; [split|].
  - intros H. remember (error_of reason_bad_nzbn r) as e eqn:E.
    destruct H as [r' Hr' Ht|r' Hr' Hf|r' Hr' Hd|r' Hr' Hd
                  |r' Hq Hr' Hna|r' m' Hc Hr' Hna Hgt
                  |r' Hq Hr' Hna|r' m' Hc Hr' Hna Hgt];
      try reason_clash.
    apply error_of_inv in E as (_ & _ & E & _).
    change (PyStr.fullmatch_digits 13 (nzbn r) = false).
    now rewrite <- (nzbn_ext _ _ E).
  - intros H. now apply V_bad_nzbn.
  - intros Hbad Hdup. split; [now apply V_bad_nzbn | now apply V_dup_nzbn].
Qed.

(** ** The summary against the detailed list *)

Lemma append_if_pos_app (n : nat) (text : string) (summary : list string) :
  append_if_pos n text summary = summary ++ summary_line n text.
Proof.
  unfold append_if_pos, summary_line. destruct (0 <? n); [reflexivity|].
  now rewrite app_nil_r.
Qed.

Lemma summarize_eq (args : config) (df : list row) :
  summarize_ args df =
    summary_line (List.length (select_type "" df)) " rows have invalid 'type'."
    ++ summary_line (List.length (bad_nzbn_rows (fourth_of df)))
         " fourthParty rows have invalid NZBN (must be 13 digits)."
    ++ summary_line (List.length (duplicated_rows nzbn (fourth_of df)))
         " fourthParty rows have duplicate NZBNs."
    ++ summary_line (List.length (duplicated_rows accountNumber (cred_of df)))
         " creditorAccount rows have duplicate accountNumbers."
    ++ (if require_numeric_paymentlimit args
        then summary_line (List.length (bad_num_rows float_of_str (fourth_of df)))
               " fourthParty rows have non-numeric paymentLimit."
        else [])
    ++ (if require_numeric_paymentlimit args
        then summary_line (List.length (bad_num_rows float_of_str (cred_of df)))
               " creditorAccount rows have non-numeric paymentLimit."
        else [])
    ++ match max_fourth args with
       | Some m =>
           summary_line (List.length (over_rows float_of_str m (fourth_of df)))
             (" fourthParty rows have paymentLimit > " ++ str_of_float m ++ ".")%string
       | None => []
       end
    ++ match max_creditor args with
       | Some m =>
           summary_line (List.length (over_rows float_of_str m (cred_of df)))
             (" creditorAccount rows have paymentLimit > " ++ str_of_float m ++ ".")%string
       | None => []
       end.
Proof.
  unfold summarize. rewrite !append_if_pos_app.
  destruct (fourth_of df) as [|f fs] eqn:Ef, (cred_of df) as [|c cs] eqn:Ec;
    destruct (require_numeric_paymentlimit args), (max_fourth args), (max_creditor args);
    cbn [empty negb orb andb is_some bad_nzbn_rows duplicated_rows bad_num_rows over_rows
         filter map app List.length summary_line Nat.ltb Nat.leb];
    rewrite ?append_if_pos_app, ?app_nil_r, <- ?app_assoc; reflexivity.
Qed.

Lemma count_of_selects (kind : option string) (reason : string) (l : list error_row) :
  count_of kind reason l = List.length (filter (selects kind reason (fun _ => true)) l).
Proof.
  unfold count_of. f_equal. apply filter_ext. intros e. unfold selects.
  now rewrite andb_true_r.
Qed.

Lemma filter_all {A : Type} (l : list A) : filter (fun _ => true) l = l.
Proof. induction l as [|x l IH]; simpl; [reflexivity | now rewrite IH]. Qed.

Lemma block_count_untyped (reason : string) (q : error_row -> bool)
    (t reason' : string) (rows : list row) :
  List.length (filter (selects None reason q) (map (error_of reason') rows))
  = block_count None reason q t reason' rows.
Proof.
  unfold block_count. cbn [kind_match]. rewrite andb_true_r.
  induction rows as [|r rows IH]; [now destruct (_ =? _)%string|].
  cbn [map filter]. unfold selects at 1, in_category.
  cbn [err_reason error_of kind_match]. rewrite andb_true_r.
  destruct (reason' =? reason)%string;
    [destruct (q (error_of reason' r))|]; cbn [andb List.length]; now rewrite IH.
Qed.

Lemma count_bad_type (args : config) (df : list row) :
  count_of None reason_bad_type (validate_ args df) = List.length (select_type "" df).
Proof.
  rewrite count_of_selects, count_validate, (block_count_untyped _ _ "").
  count_blocks.
  destruct (require_numeric_paymentlimit args), (max_fourth args), (max_creditor args);
    cbn; rewrite filter_all; lia.
Qed.

Ltac count_open :=
  rewrite count_of_selects, count_validate, block_count_bad_type by reflexivity.

Ltac count_close :=
  count_blocks;
  repeat match goal with
         | |- context [require_numeric_paymentlimit ?a] =>
             destruct (require_numeric_paymentlimit a)
         | |- context [match ?o with Some _ => _ | None => _ end] => destruct o
         end;
  cbn; rewrite ?String.eqb_refl, ?andb_false_r, ?filter_all; cbn; lia.

Ltac count_kind := count_open; count_close.

Lemma count_bad_nzbn (args : config) (df : list row) :
  count_of (Some "fourthParty") reason_bad_nzbn (validate_ args df)
  = List.length (bad_nzbn_rows (fourth_of df)).
Proof. count_kind. Qed.

Lemma count_dup_nzbn (args : config) (df : list row) :
  count_of (Some "fourthParty") reason_dup_nzbn (validate_ args df)
  = List.length (duplicated_rows nzbn (fourth_of df)).
Proof. count_kind. Qed.

Lemma count_dup_acct (args : config) (df : list row) :
  count_of (Some "creditorAccount") reason_dup_acct (validate_ args df)
  = List.length (duplicated_rows accountNumber (cred_of df)).
Proof. count_kind. Qed.

Lemma count_non_numeric_fourth (args : config) (df : list row) :
  count_of (Some "fourthParty") reason_non_numeric (validate_ args df)
  = if require_numeric_paymentlimit args
    then List.length (bad_num_rows float_of_str (fourth_of df)) else 0.
Proof. count_kind. Qed.

Lemma count_non_numeric_cred (args : config) (df : list row) :
  count_of (Some "creditorAccount") reason_non_numeric (validate_ args df)
  = if require_numeric_paymentlimit args
    then List.length (bad_num_rows float_of_str (cred_of df)) else 0.
Proof. count_kind. Qed.

Lemma count_over_fourth (args : config) (df : list row) (m : spec_float) :
  max_fourth args = Some m ->
  count_of (Some "fourthParty") (reason_over str_of_float m) (validate_ args df)
  = List.length (over_rows float_of_str m (fourth_of df)).
Proof. intros Hm. count_open. rewrite Hm. count_close. Qed.

Lemma count_over_cred (args : config) (df : list row) (m : spec_float) :
  max_creditor args = Some m ->
  count_of (Some "creditorAccount") (reason_over str_of_float m) (validate_ args df)
  = List.length (over_rows float_of_str m (cred_of df)).
Proof. intros Hm. count_open. rewrite Hm. count_close. Qed.

Lemma main_failed_inv (args : config) (input : excel_file)
    (summary : list string) (detailed : list error_row) :
  main_ args input = ValidationFailed summary detailed ->
  exists df_raw,
    ingest input = inr df_raw
    /\ validate_ args (drop_blank df_raw) <> []
    /\ summary = summarize_ args (drop_blank df_raw)
    /\ detailed = sorted (validate_ args (drop_blank df_raw)).
Proof.
  unfold main, process. destruct (ingest input) as [status|df_raw]; [discriminate|].
  destruct (validate_ args (drop_blank df_raw)) as [|e es] eqn:Ev; [discriminate|].
  intros [= <- <-]. exists df_raw. rewrite Ev.
  split; [reflexivity|]. split; [discriminate|]. split; reflexivity.
Qed.

(** C10: in a failing run the count stated in each summary line is the
    number of entries of that category (the reason, for the kind the line
    names) in the detailed list, and a category has a line exactly when it
    has an entry: the summary is the one obtained by counting the detailed
    list. *)
Theorem summary_counts_match
    (args : config) (input : excel_file)
    (summary : list string) (detailed : list error_row) :
  main_ args input = ValidationFailed summary detailed ->
  summary = summary_from_counts_ args detailed.
Proof.
  intros H. apply main_failed_inv in H as (df_raw & _ & _ & -> & ->).
  rewrite summarize_eq. unfold summary_from_counts.
  rewrite !count_of_sorted.
  rewrite count_bad_type, count_bad_nzbn, count_dup_nzbn, count_dup_acct,
    count_non_numeric_fourth, count_non_numeric_cred.
  destruct (max_fourth args) as [mf|] eqn:Hf, (max_creditor args) as [mc|] eqn:Hc;
    rewrite ?count_of_sorted, ?(count_over_fourth _ _ _ Hf), ?(count_over_cred _ _ _ Hc);
    destruct (require_numeric_paymentlimit args); reflexivity.
Qed.

Lemma violation_row (args : config) (df : list row) (e : error_row) :
  violation_ args df e -> exists r, In r df /\ e = error_of (err_reason e) r.
Proof.
  intros [r Hr Ht|r Hr Hf|r Hr Hd|r Hr Hd|r Hq Hr Hna|r m Hc Hr Hna Hgt
         |r Hq Hr Hna|r m Hc Hr Hna Hgt];
    exists r; (split; [|reflexivity]);
    first [exact Hr | now apply in_fourth_of in Hr | now apply in_cred_of in Hr].
Qed.

Lemma violations_key (args : config) (input : excel_file) (a b : error_row) :
  In a (violations_ args input) -> In b (violations_ args input) ->
  sort_key a = sort_key b -> a = b.
Proof.
  unfold violations. destruct (ingest input) as [status|df_raw] eqn:Ei; [contradiction|].
  destruct (ingest_frame _ _ Ei) as (rs & ->).
  rewrite !in_validate_iff. intros Ha Hb [= Erow Ereason].
  apply violation_row in Ha as (ra & Hra & Ea), Hb as (rb & Hrb & Eb).
  rewrite Ea, Eb, Ereason. f_equal.
  apply in_drop_blank in Hra as [Hra _], Hrb as [Hrb _].
  apply (normalize_from_position 0 rs); [exact Hra | exact Hrb |].
  rewrite Ea, Eb in Erow. exact Erow.
Qed.

(** C6: in a failing run the detailed list holds the violations of the run
    ordered by source position and, at equal positions, by reason in
    lexicographic order; it is the only list of these violations in that
    order, so every run over the same input and configuration prints the
    same one. *)
Theorem detailed_list_sorted
    (args : config) (input : excel_file)
    (summary : list string) (detailed : list error_row) :
  main_ args input = ValidationFailed summary detailed ->
  StronglySorted key_order detailed
  /\ Permutation detailed (violations_ args input)
  /\ (forall l, Permutation l (violations_ args input) ->
                StronglySorted key_order l -> l = detailed).
Proof.
  intros H. apply main_failed_inv in H as (df_raw & Hi & _ & _ & ->).
  rewrite <- (violations_ingested _ _ _ Hi).
  split; [apply sorted_strongly|]. split; [apply sorted_perm|].
  intros l Hp Hs. apply sorted_unique.
  - rewrite Hp. symmetry. apply sorted_perm.
  - exact Hs.
  - apply sorted_strongly.
  - intros a b Ha Hb. apply (violations_key args input); eapply Permutation_in; eassumption.
Qed.

(** ** Round trip of the document *)

Lemma main_wrote_inv (args : config) (input : excel_file) (doc : string) :
  main_ args input = Wrote doc ->
  violations_ args input = [] /\ doc = document_of args (frame_of input).
Proof.
  unfold main, violations, frame_of, process.
  destruct (ingest input) as [status|df_raw]; [discriminate|].
  destruct (validate_ args (drop_blank df_raw)); [|discriminate].
  intros [= <-]. split; reflexivity.
Qed.

(** X21: for a run that writes its document and in which no comment holds
    a line feed, reading the document back gives, section by section and
    in order, the key and the limit text of every row the emitter wrote an
    entry for (the rows with a non-empty key), the annotations dropped and
    the doubled quotes read as one quote. *)
Theorem document_round_trip (args : config) (input : excel_file) (doc : string) :
  main_ args input = Wrote doc ->
  (forall r, In r (frame_of input) -> has_char LF (comment r) = false) ->
  violations_ args input = []
  /\ parse_document doc = Some (record_pairs args (frame_of input)).
Proof.
  intros Hm Hcm. apply main_wrote_inv in Hm as [Hv ->]. split; [exact Hv|].
  unfold document_of, record_pairs. apply parse_emitted.
  - intros r Hr. apply Hcm. apply in_dedupe_cred in Hr.
    now apply in_cred_of in Hr.
  - intros r Hr. apply Hcm. apply in_dedupe_fourth in Hr.
    now apply in_fourth_of in Hr.
Qed.

(** The part of C2 the code keeps: a row of the frame with an unrecognised
    kind gets the violation "invalid 'type'", and the rows left out of the
    frame are those whose canonical kind, identifier, limit and comment
    are all empty. *)
Lemma unrecognized_kind_flagged (args : config) (input : excel_file) (r : row) :
  In r (frame_of input) -> type_norm r = "" ->
  In (error_of reason_bad_type r) (violations_ args input).
Proof.
  unfold frame_of, violations. destruct (ingest input) as [status|df_raw]; [contradiction|].
  intros Hr Ht. apply in_validate_iff. now constructor.
Qed.


End Closed_form.

(** ** The scenarios of the specification *)

Example scenario_a :
  Scenario.run Scenario.require_numeric (Demo.book Scenario.rows_a)
  = ValidationFailed
      ["1 rows have invalid 'type'.";
       "1 fourthParty rows have non-numeric paymentLimit."]
      [mkError 3 "fourthParty" "1234567890123" "abc" reason_non_numeric;
       mkError 4 "bogus" "7" "1" reason_bad_type].
Proof. reflexivity. Qed.

Example scenario_b :
  Scenario.run Demo.no_flags (Demo.book Scenario.rows_b)
  = ValidationFailed
      ["2 fourthParty rows have duplicate NZBNs."]
      [mkError 2 "fourthParty" "9999999999999" "1" reason_dup_nzbn;
       mkError 3 "fourthParty" "9999 999999999" "2" reason_dup_nzbn].
Proof. reflexivity. Qed.

Example scenario_c :
  Scenario.run (with_dedupe false true Demo.no_flags) (Demo.book Scenario.rows_b)
  = Scenario.run Demo.no_flags (Demo.book Scenario.rows_b).
Proof. reflexivity. Qed.

Example scenario_d :
  Scenario.run Demo.no_flags (Demo.book Scenario.rows_d)
  = Wrote ("creditorAccounts:" ++ String LF
           ("  - accountNumber:'42'" ++ String LF
            ("      paymentLimit:'10' #note" ++ String LF
             ("fourthParties:" ++ String LF ""))))%string.
Proof. reflexivity. Qed.

(** A row without a key is left out of the document although it raised no
    violation. *)
Example empty_key_skipped :
  Scenario.run Demo.no_flags (Demo.book Scenario.rows_no_key)
  = Wrote ("creditorAccounts:" ++ String LF ("fourthParties:" ++ String LF ""))%string.
Proof. reflexivity. Qed.

(** C2, the run that departs from it: a row whose kind text is "bogus" and
    whose identifier, limit and comment are blank is left out before the
    checks, so the run records no violation and writes a document with two
    empty sections. *)
Theorem unrecognized_kind_dropped_as_blank
    (float_of_str : string -> option spec_float) (str_of_float : spec_float -> string) :
  violations float_of_str str_of_float Demo.no_flags (Demo.book Scenario.rows_bogus) = []
  /\ frame_of (Demo.book Scenario.rows_bogus) = []
  /\ main float_of_str str_of_float Demo.no_flags (Demo.book Scenario.rows_bogus)
     = Wrote ("creditorAccounts:" ++ String LF ("fourthParties:" ++ String LF ""))%string.
Proof. repeat split. Qed.

(** A comment with line feeds is written as it is, so the document of one
    record is also the document of two. *)
Lemma document_ambiguous :
  Scenario.run Demo.no_flags (Demo.book Scenario.rows_injected)
  = Scenario.run Demo.no_flags (Demo.book Scenario.rows_two_accounts)
  /\ record_pairs Demo.no_flags (frame_of (Demo.book Scenario.rows_injected))
     <> record_pairs Demo.no_flags (frame_of (Demo.book Scenario.rows_two_accounts)).
Proof. split; [reflexivity | vm_compute; discriminate]. Qed.

(** C7, the run that departs from it: [emit_yaml_line] doubles the quotes
    of the value but appends the comment as it is, so a comment with line
    feeds adds lines to the document.  The run below has no violation and
    one accepted record, and reading its document back gives two entries,
    not the fields of that record. *)
Lemma round_trip_fails_on_line_feed :
  Scenario.found Demo.no_flags (Demo.book Scenario.rows_injected) = []
  /\ Scenario.run Demo.no_flags (Demo.book Scenario.rows_injected)
     = Wrote (document_of Demo.no_flags (frame_of (Demo.book Scenario.rows_injected)))
  /\ parse_document
       (document_of Demo.no_flags (frame_of (Demo.book Scenario.rows_injected)))
     = Some [("creditorAccounts",
              [("accountNumber", "1"); ("paymentLimit", "2");
               ("accountNumber", "3"); ("paymentLimit", "4")]);
             ("fourthParties", [])]
  /\ parse_document
       (document_of Demo.no_flags (frame_of (Demo.book Scenario.rows_injected)))
     <> Some (record_pairs Demo.no_flags (frame_of (Demo.book Scenario.rows_injected))).
Proof.
  split; [reflexivity|]. split; [reflexivity|].
  split; [reflexivity | vm_compute; discriminate].
Qed.

(** ** The theorems at concrete runs *)

Lemma violations_suppress_document_witness :
  Scenario.found Scenario.require_numeric (Demo.book Scenario.rows_a) <> []
  /\ output_written (Scenario.run Scenario.require_numeric (Demo.book Scenario.rows_a)) = None
  /\ exit_status (Scenario.run Scenario.require_numeric (Demo.book Scenario.rows_a)) = 3.
Proof.
  assert (H : Scenario.found Scenario.require_numeric (Demo.book Scenario.rows_a) <> [])
    by (vm_compute; discriminate).
  split; [exact H|].
  destruct (violations_suppress_document Demo.float_of_str Demo.str_of_float
              Scenario.require_numeric (Demo.book Scenario.rows_a) H) as (Hw & Hs & _).
  split; [exact Hw | exact Hs].
Defined.

Lemma dedupe_flags_inert_on_failure_witness :
  Scenario.found Demo.no_flags (Demo.book Scenario.rows_b) <> []
  /\ Scenario.run (with_dedupe true true Demo.no_flags) (Demo.book Scenario.rows_b)
     = Scenario.run Demo.no_flags (Demo.book Scenario.rows_b)
  /\ exit_status (Scenario.run (with_dedupe true true Demo.no_flags) (Demo.book Scenario.rows_b))
     = 3.
Proof.
  assert (H : Scenario.found Demo.no_flags (Demo.book Scenario.rows_b) <> [])
    by (vm_compute; discriminate).
  split; [exact H|].
  destruct (dedupe_flags_inert_on_failure Demo.float_of_str Demo.str_of_float
              Demo.no_flags (Demo.book Scenario.rows_b) true true H) as (_ & Hm & Hs).
  split; [exact Hm | exact Hs].
Defined.

Lemma duplicates_all_flagged_witness :
  (2 <= occurrences nzbn "9999999999999"
          (fourth_of (drop_blank (df_raw_of Scenario.rows_dup)))
   /\ List.length
        (filter (selects (Some "fourthParty") reason_dup_nzbn
                   (keyed PyStr.re_sub_spaces "9999999999999"))
                (Scenario.found Demo.no_flags (Demo.book Scenario.rows_dup)))
      = 2)
  /\ (2 <= occurrences accountNumber "9999999999999"
             (cred_of (drop_blank (df_raw_of Scenario.rows_dup)))
      /\ List.length
           (filter (selects (Some "creditorAccount") reason_dup_acct
                      (keyed (fun i => i) "9999999999999"))
                   (Scenario.found Demo.no_flags (Demo.book Scenario.rows_dup)))
         = 2).
Proof.
  destruct (duplicates_all_flagged Demo.float_of_str Demo.str_of_float Demo.no_flags
              (Demo.book Scenario.rows_dup) (df_raw_of Scenario.rows_dup)
              "9999999999999" eq_refl) as [Hf Hc].
  assert (H2 : 2 <= 2) by lia.
  split; (split; [vm_compute; lia|]).
  - exact (Hf H2).
  - exact (Hc H2).
Defined.

Lemma ceiling_is_inclusive_witness :
  let r := normalize_row 0 (Demo.text_row "fourthParty" "1234567890123" "100" "") in
  to_number_or_none Demo.float_of_str (paymentLimit r) = Some Scenario.hundred
  /\ SFeqb Scenario.hundred Scenario.hundred = true
  /\ ~ In (error_of (reason_over Demo.str_of_float Scenario.hundred) r)
          (Scenario.found Scenario.ceiling_100 (Demo.book Scenario.rows_at_ceiling))
  /\ err_reason (error_of (reason_over Demo.str_of_float Scenario.hundred) r)
     = "paymentLimit > 100.0".
Proof.
  intros r.
  assert (Hk : (max_fourth Scenario.ceiling_100 = Some Scenario.hundred
                /\ In r (fourth_of (drop_blank (df_raw_of Scenario.rows_at_ceiling))))
               \/ (max_creditor Scenario.ceiling_100 = Some Scenario.hundred
                   /\ In r (cred_of (drop_blank (df_raw_of Scenario.rows_at_ceiling)))))
    by (left; split; [reflexivity | left; reflexivity]).
  destruct (ceiling_is_inclusive Demo.float_of_str Demo.str_of_float Scenario.ceiling_100
              (Demo.book Scenario.rows_at_ceiling) (df_raw_of Scenario.rows_at_ceiling)
              r Scenario.hundred eq_refl Hk) as (_ & Heq & Hreason).
  split; [reflexivity|]. split; [reflexivity|].
  split; [exact (Heq Scenario.hundred eq_refl eq_refl) | exact Hreason].
Defined.

Lemma nzbn_format_checked_witness :
  let r := normalize_row 0 (Demo.text_row "fourthParty" "12 34" "1" "") in
  In r (fourth_of (drop_blank (df_raw_of Scenario.rows_malformed)))
  /\ In (error_of reason_bad_nzbn r)
        (Scenario.found Demo.no_flags (Demo.book Scenario.rows_malformed))
  /\ In (error_of reason_dup_nzbn r)
        (Scenario.found Demo.no_flags (Demo.book Scenario.rows_malformed)).
Proof.
  intros r.
  assert (Hr : In r (fourth_of (drop_blank (df_raw_of Scenario.rows_malformed))))
    by (left; reflexivity).
  split; [exact Hr|].
  destruct (nzbn_format_checked Demo.float_of_str Demo.str_of_float Demo.no_flags
              (Demo.book Scenario.rows_malformed) (df_raw_of Scenario.rows_malformed)
              r eq_refl Hr) as (_ & Hboth).
  apply Hboth; [reflexivity | vm_compute; lia].
Defined.

Lemma detailed_list_sorted_witness :
  StronglySorted key_order
    [mkError 3 "fourthParty" "1234567890123" "abc" reason_non_numeric;
     mkError 4 "bogus" "7" "1" reason_bad_type]
  /\ Permutation
       [mkError 3 "fourthParty" "1234567890123" "abc" reason_non_numeric;
        mkError 4 "bogus" "7" "1" reason_bad_type]
       (Scenario.found Scenario.require_numeric (Demo.book Scenario.rows_a)).
Proof.
  destruct (detailed_list_sorted Demo.float_of_str Demo.str_of_float
              Scenario.require_numeric (Demo.book Scenario.rows_a) _ _ scenario_a)
    as (Hs & Hp & _).
  split; [exact Hs | exact Hp].
Defined.

Lemma document_round_trip_witness :
  (forall r, In r (frame_of (Demo.book Scenario.rows_d)) -> has_char LF (comment r) = false)
  /\ parse_document
       ("creditorAccounts:" ++ String LF
        ("  - accountNumber:'42'" ++ String LF
         ("      paymentLimit:'10' #note" ++ String LF
          ("fourthParties:" ++ String LF ""))))%string
     = Some [("creditorAccounts", [("accountNumber", "42"); ("paymentLimit", "10")]);
             ("fourthParties", [])].
Proof.
  assert (Hcm : forall r, In r (frame_of (Demo.book Scenario.rows_d)) ->
                          has_char LF (comment r) = false)
    by (intros r [<-|[]]; reflexivity).
  split; [exact Hcm|].
  exact (proj2 (document_round_trip Demo.float_of_str Demo.str_of_float Demo.no_flags
                  (Demo.book Scenario.rows_d) _ scenario_d Hcm)).
Defined.

Lemma summary_counts_match_witness :
  ["1 rows have invalid 'type'."; "1 fourthParty rows have non-numeric paymentLimit."]
  = summary_from_counts Demo.str_of_float Scenario.require_numeric
      [mkError 3 "fourthParty" "1234567890123" "abc" reason_non_numeric;
       mkError 4 "bogus" "7" "1" reason_bad_type].
Proof.
  exact (summary_counts_match Demo.float_of_str Demo.str_of_float Scenario.require_numeric
           (Demo.book Scenario.rows_a) _ _ scenario_a).
Defined.

(** * Further properties of the pipeline *)

(** ** Keys without repetition *)

Lemma occurrences_cons (key : row -> string) (k : string) (x : row) (frame : list row) :
  occurrences key k (x :: frame)
  = (if (key x =? k)%string then 1 else 0) + occurrences key k frame.
Proof. unfold occurrences. simpl. now destruct (key x =? k)%string. Qed.

Lemma occurrences_in (key : row -> string) (frame : list row) (r : row) :
  In r frame -> 1 <= occurrences key (key r) frame.
Proof.
  induction frame as [|x frame IH]; [contradiction|].
  rewrite occurrences_cons. intros [->|H].
  - rewrite String.eqb_refl. lia.
  - apply IH in H. lia.
Qed.

Lemma duplicated_rows_nil (key : row -> string) (frame : list row) (r : row) :
  duplicated_rows key frame = [] -> In r frame -> occurrences key (key r) frame = 1.
Proof.
  intros Hn Hr. assert (H1 := occurrences_in key frame r Hr).
  destruct (Nat.leb_spec 2 (occurrences key (key r) frame)) as [H2|H2]; [|lia].
  assert (Hd : In r (duplicated_rows key frame)).
  { unfold duplicated_rows. apply filter_In. split; [exact Hr|].
    now apply duplicated_mask_iff. }
  rewrite Hn in Hd. contradiction.
Qed.

Lemma drop_duplicates_from_unique (key : row -> string) (seen : list string)
    (frame : list row) :
  (forall r, In r frame -> occurrences key (key r) frame = 1) ->
  (forall r, In r frame -> ~ In (key r) seen) ->
  drop_duplicates_from key seen frame = frame.
Proof.
  revert seen. induction frame as [|x frame IH]; intros seen Hocc Hseen; [reflexivity|].
  cbn [drop_duplicates_from].
  assert (Hx : existsb (fun k => (k =? key x)%string) seen = false).
  { destruct (existsb _ seen) eqn:E; [|reflexivity].
    apply existsb_exists in E as (k & Hk & Ek). apply String.eqb_eq in Ek. subst k.
    exfalso. apply (Hseen x); [now left | exact Hk]. }
  rewrite Hx. f_equal.
  assert (Hx1 : occurrences key (key x) frame = 0).
  { assert (H := Hocc x (or_introl eq_refl)). rewrite occurrences_cons in H.
    rewrite String.eqb_refl in H. lia. }
  apply IH.
  - intros r Hr. assert (H := Hocc r (or_intror Hr)). rewrite occurrences_cons in H.
    assert (H1 := occurrences_in key frame r Hr).
    destruct (key x =? key r)%string; lia.
  - intros r Hr [Hk|Hk].
    + assert (H1 := occurrences_in key frame r Hr). rewrite <- Hk in H1. lia.
    + apply (Hseen r); [now right | exact Hk].
Qed.

Lemma drop_duplicates_unique (key : row -> string) (frame : list row) :
  duplicated_rows key frame = [] -> drop_duplicates key frame = frame.
Proof.
  intros H. apply drop_duplicates_from_unique.
  - intros r. now apply duplicated_rows_nil.
  - intros r _ [].
Qed.

(** ** Kinds of the rows of a sheet *)

Lemma dict_get_valid_types (k : string) :
  dict_get VALID_TYPES k "" = ""
  \/ dict_get VALID_TYPES k "" = "creditorAccount"
  \/ dict_get VALID_TYPES k "" = "fourthParty".
Proof.
  unfold VALID_TYPES. cbn [dict_get].
  destruct ("creditoraccount" =? k)%string; [now right; left|].
  destruct ("fourthparty" =? k)%string; [now right; right | now left].
Qed.

Lemma normalize_from_kind (i : nat) (rs : list raw_row) (r : row) :
  In r (normalize_from i rs) ->
  type_norm r = "" \/ type_norm r = "creditorAccount" \/ type_norm r = "fourthParty".
Proof.
  revert i. induction rs as [|x rs IH]; intros i; simpl; [contradiction|].
  intros [<-|H]; [apply dict_get_valid_types | eapply IH, H].
Qed.

Lemma frame_of_kind (input : excel_file) (r : row) :
  In r (frame_of input) ->
  type_norm r = "" \/ type_norm r = "creditorAccount" \/ type_norm r = "fourthParty".
Proof.
  unfold frame_of. destruct (ingest input) as [status|df_raw] eqn:Ei; [contradiction|].
  destruct (ingest_frame _ _ Ei) as (rs & ->).
  intros H. apply in_drop_blank in H as [H _]. eapply normalize_from_kind, H.
Qed.

Lemma filter_nil_false {A : Type} (f : A -> bool) (l : list A) (x : A) :
  filter f l = [] -> In x l -> f x = false.
Proof.
  intros Hn Hx. destruct (f x) eqn:E; [|reflexivity].
  assert (H : In x (filter f l)) by (apply filter_In; auto).
  rewrite Hn in H. contradiction.
Qed.

Lemma select_type_cons (t : string) (x : row) (l : list row) :
  select_type t (x :: l)
  = if (type_norm x =? t)%string then x :: select_type t l else select_type t l.
Proof. reflexivity. Qed.

Lemma kinds_partition (l : list row) :
  (forall r, In r l ->
     type_norm r = "" \/ type_norm r = "creditorAccount" \/ type_norm r = "fourthParty") ->
  Permutation l (cred_of l ++ fourth_of l ++ select_type "" l).
Proof.
  induction l as [|x l IH]; intros H; [reflexivity|].
  assert (IH' := IH (fun r Hr => H r (or_intror Hr))). clear IH.
  unfold cred_of, fourth_of. rewrite !select_type_cons.
  destruct (H x (or_introl eq_refl)) as [E|[E|E]]; rewrite E; cbn [String.eqb Ascii.eqb Bool.eqb].
  - rewrite IH' at 1. unfold cred_of, fourth_of. rewrite !app_assoc.
    apply Permutation_middle.
  - cbn [app]. now constructor.
  - rewrite IH' at 1. unfold cred_of, fourth_of. apply Permutation_middle.
Qed.

Lemma summary_line_nil (n : nat) (text : string) : summary_line n text = [] <-> n = 0.
Proof.
  unfold summary_line. destruct n; cbn; [tauto|]. split; [discriminate | lia].
Qed.

Lemma summary_line_length_nil {A : Type} (l : list A) (text : string) :
  summary_line (List.length l) text = [] <-> l = [].
Proof. rewrite summary_line_nil. apply length_zero_iff_nil. Qed.

Lemma forallb_exists_false {A : Type} (f : A -> bool) (l : list A) :
  forallb f l = false -> exists x, In x l /\ f x = false.
Proof.
  induction l as [|x l IH]; cbn; [discriminate|].
  destruct (f x) eqn:E; cbn.
  - intros H. apply IH in H as (y & Hy & Hf). exists y. auto.
  - intros _. exists x. auto.
Qed.

(** ** Records behind the rows *)

Lemma in_normalize_from (i : nat) (rs : list raw_row) (r : row) :
  In r (normalize_from i rs) ->
  exists k raw, nth_error rs k = Some raw /\ r = normalize_row (i + k) raw.
Proof.
  revert i. induction rs as [|x rs IH]; intros i; simpl; [contradiction|].
  intros [<-|H].
  - exists 0, x. split; [reflexivity|]. now rewrite Nat.add_0_r.
  - apply IH in H as (k & raw & Hk & ->). exists (S k), raw.
    split; [exact Hk|]. f_equal. lia.
Qed.

Lemma ingest_records (input : excel_file) (df_raw : list row) :
  ingest input = inr df_raw -> df_raw = df_raw_of (records_of input).
Proof.
  unfold ingest, records_of. destruct input as [|sheets]; [discriminate|].
  destruct (find_sheet "data" sheets) as [sh|]; [|discriminate].
  destruct (forallb (has_column sh) required_columns); [|discriminate].
  now intros [= <-].
Qed.

Lemma in_frame_of (input : excel_file) (r : row) :
  In r (frame_of input) ->
  exists k raw,
    nth_error (records_of input) k = Some raw
    /\ r = normalize_row k raw /\ all_blank r = false.
Proof.
  unfold frame_of. destruct (ingest input) as [status|df_raw] eqn:Ei; [contradiction|].
  rewrite (ingest_records _ _ Ei). intros H. apply in_drop_blank in H as [H Hb].
  apply in_normalize_from in H as (k & raw & Hk & ->). eauto.
Qed.

(** ** Stripping *)

Lemma lstrip_head (s : string) : starts_with_space (PyStr.lstrip s) = false.
Proof.
  induction s as [|c s IH]; [reflexivity|]. cbn [PyStr.lstrip].
  destruct (PyStr.is_space c) eqn:E; [exact IH | exact E].
Qed.

Lemma rstrip_head (s : string) :
  starts_with_space s = false -> starts_with_space (PyStr.rstrip s) = false.
Proof.
  destruct s as [|c s]; [reflexivity|]. cbn [PyStr.rstrip starts_with_space].
  intros E. rewrite E. exact E.
Qed.

Lemma rstrip_last (s : string) : ends_with_space (PyStr.rstrip s) = false.
Proof.
  induction s as [|c s IH]; [reflexivity|]. cbn [PyStr.rstrip].
  destruct (PyStr.rstrip s) as [|d t] eqn:Er.
  - cbn [String.eqb]. rewrite andb_true_r.
    destruct (PyStr.is_space c) eqn:E; [reflexivity | exact E].
  - cbn [String.eqb]. rewrite andb_false_r. exact IH.
Qed.

Lemma lstrip_fixed (s : string) : starts_with_space s = false -> PyStr.lstrip s = s.
Proof. destruct s as [|c s]; [reflexivity|]. cbn. now intros ->. Qed.

Lemma rstrip_fixed (s : string) : ends_with_space s = false -> PyStr.rstrip s = s.
Proof.
  induction s as [|c s IH]; [reflexivity|]. cbn [PyStr.rstrip ends_with_space].
  destruct s as [|d t].
  - intros E. cbn. now rewrite E.
  - intros E. rewrite (IH E). cbn [String.eqb]. now rewrite andb_false_r.
Qed.

Lemma strip_trimmed (s : string) :
  starts_with_space (PyStr.strip s) = false /\ ends_with_space (PyStr.strip s) = false.
Proof.
  unfold PyStr.strip. split; [apply rstrip_head, lstrip_head | apply rstrip_last].
Qed.

Lemma strip_idempotent (s : string) : PyStr.strip (PyStr.strip s) = PyStr.strip s.
Proof.
  destruct (strip_trimmed s) as [Hh Hl]. unfold PyStr.strip at 1.
  now rewrite (lstrip_fixed _ Hh), (rstrip_fixed _ Hl).
Qed.

Lemma lstrip_empty_iff (s : string) : PyStr.lstrip s = "" <-> all_space s = true.
Proof.
  induction s as [|c s IH]; [tauto|]. cbn [PyStr.lstrip all_space].
  destruct (PyStr.is_space c); cbn [andb]; [exact IH|]. split; discriminate.
Qed.

Lemma rstrip_empty_iff (s : string) : PyStr.rstrip s = "" <-> all_space s = true.
Proof.
  induction s as [|c s IH]; [tauto|]. cbn [PyStr.rstrip all_space].
  destruct (PyStr.is_space c); cbn [andb].
  - destruct (PyStr.rstrip s) as [|d t]; cbn [String.eqb].
    + rewrite <- IH. tauto.
    + rewrite <- IH. split; discriminate.
  - split; discriminate.
Qed.

Lemma all_space_lstrip (s : string) : all_space (PyStr.lstrip s) = all_space s.
Proof.
  induction s as [|c s IH]; [reflexivity|]. cbn [PyStr.lstrip all_space].
  destruct (PyStr.is_space c) eqn:E; [exact IH|]. cbn [all_space]. now rewrite E.
Qed.

Lemma strip_empty_iff (s : string) : PyStr.strip s = "" <-> all_space s = true.
Proof. unfold PyStr.strip. now rewrite rstrip_empty_iff, all_space_lstrip. Qed.

(** X10: a normalised cell has no whitespace at either end, and
    normalising it again changes nothing. *)
Theorem normalize_str_trimmed (x : cell) :
  starts_with_space (normalize_str x) = false
  /\ ends_with_space (normalize_str x) = false
  /\ normalize_str (Some (normalize_str x)) = normalize_str x.
Proof.
  destruct x as [s|]; [|repeat split].
  cbn [normalize_str]. destruct (strip_trimmed s) as [Hh Hl].
  split; [exact Hh|]. split; [exact Hl | apply strip_idempotent].
Qed.

(** X11: a cell normalises to the empty text exactly when it is missing or
    holds whitespace only. *)
Theorem normalize_str_empty_iff (x : cell) :
  normalize_str x = "" <-> blank_cell x = true.
Proof.
  destruct x as [s|]; cbn [normalize_str blank_cell]; [apply strip_empty_iff | tauto].
Qed.

(** ** Letter case *)

Lemma is_space_lower_char (c : ascii) :
  PyStr.is_space (PyStr.lower_char c) = PyStr.is_space c.
Proof. destruct c as [[] [] [] [] [] [] [] []]; reflexivity. Qed.

Lemma lower_char_idempotent (c : ascii) :
  PyStr.lower_char (PyStr.lower_char c) = PyStr.lower_char c.
Proof. destruct c as [[] [] [] [] [] [] [] []]; reflexivity. Qed.

Lemma lower_idempotent (s : string) : PyStr.lower (PyStr.lower s) = PyStr.lower s.
Proof.
  induction s as [|c s IH]; [reflexivity|]. cbn [PyStr.lower].
  now rewrite lower_char_idempotent, IH.
Qed.

Lemma lstrip_lower (s : string) : PyStr.lstrip (PyStr.lower s) = PyStr.lower (PyStr.lstrip s).
Proof.
  induction s as [|c s IH]; [reflexivity|]. cbn [PyStr.lower PyStr.lstrip].
  rewrite is_space_lower_char. now destruct (PyStr.is_space c).
Qed.

Lemma lower_empty (s : string) : (PyStr.lower s =? "")%string = (s =? "")%string.
Proof. now destruct s. Qed.

Lemma rstrip_lower (s : string) : PyStr.rstrip (PyStr.lower s) = PyStr.lower (PyStr.rstrip s).
Proof.
  induction s as [|c s IH]; [reflexivity|]. cbn [PyStr.lower PyStr.rstrip].
  rewrite is_space_lower_char, IH, lower_empty.
  now destruct (PyStr.is_space c && (PyStr.rstrip s =? "")%string).
Qed.

Lemma strip_lower (s : string) : PyStr.strip (PyStr.lower s) = PyStr.lower (PyStr.strip s).
Proof. unfold PyStr.strip. now rewrite lstrip_lower, rstrip_lower. Qed.

(** X13: the kind of a row does not depend on the letter case of its type
    cell: with the cell in lower case the row gets the same kind. *)
Theorem kind_ignores_case (i : nat) (r : raw_row) :
  type_norm (normalize_row i (lower_type r)) = type_norm (normalize_row i r).
Proof.
  unfold normalize_row, lower_type. cbn [type_norm raw_type].
  destruct (raw_type r) as [s|]; [|reflexivity].
  cbn [option_map normalize_str]. now rewrite strip_lower, lower_idempotent.
Qed.

(** ** Dropping repeated keys *)

Lemma drop_duplicates_from_seen (key : row -> string) (seen : list string)
    (frame : list row) (r : row) :
  In r (drop_duplicates_from key seen frame) -> ~ In (key r) seen.
Proof.
  revert seen. induction frame as [|x frame IH]; intros seen; [contradiction|].
  cbn [drop_duplicates_from].
  destruct (existsb (fun k => (k =? key x)%string) seen) eqn:E.
  - apply IH.
  - intros [<-|H] Hs.
    + assert (Hx : existsb (fun k => (k =? key x)%string) seen = true).
      { apply existsb_exists. exists (key x). split; [exact Hs | apply String.eqb_refl]. }
      congruence.
    + apply IH in H. apply H. now right.
Qed.

Lemma drop_duplicates_from_nodup (key : row -> string) (seen : list string)
    (frame : list row) :
  NoDup (map key (drop_duplicates_from key seen frame)).
Proof.
  revert seen. induction frame as [|x frame IH]; intros seen; [constructor|].
  cbn [drop_duplicates_from].
  destruct (existsb (fun k => (k =? key x)%string) seen); [apply IH|].
  cbn [map]. constructor; [|apply IH].
  intros H. apply in_map_iff in H as (r & Hk & Hr).
  apply drop_duplicates_from_seen in Hr. apply Hr. left. now symmetry.
Qed.

Lemma drop_duplicates_from_find (key : row -> string) (seen : list string)
    (frame : list row) (k : string) :
  ~ In k seen ->
  find (fun r => (key r =? k)%string) (drop_duplicates_from key seen frame)
  = find (fun r => (key r =? k)%string) frame.
Proof.
  revert seen. induction frame as [|x frame IH]; intros seen Hk; [reflexivity|].
  cbn [drop_duplicates_from find].
  destruct (existsb (fun k' => (k' =? key x)%string) seen) eqn:E.
  - destruct (key x =? k)%string eqn:Ex.
    + apply String.eqb_eq in Ex. subst k.
      apply existsb_exists in E as (k' & Hin & Ek). apply String.eqb_eq in Ek. subst k'.
      contradiction.
    + now apply IH.
  - cbn [find]. destruct (key x =? k)%string eqn:Ex; [reflexivity|].
    apply IH. intros [H|H]; [|contradiction].
    subst k. now rewrite String.eqb_refl in Ex.
Qed.

Lemma nodup_occurrences (key : row -> string) (frame : list row) (r : row) :
  NoDup (map key frame) -> In r frame -> occurrences key (key r) frame = 1.
Proof.
  induction frame as [|x frame IH]; [contradiction|].
  cbn [map]. intros Hn. inversion Hn as [|? ? Hx Hn']; subst.
  rewrite occurrences_cons. intros [->|Hr].
  - rewrite String.eqb_refl.
    destruct (occurrences key (key r) frame) eqn:Eo; [reflexivity|].
    exfalso. apply Hx. unfold occurrences in Eo.
    destruct (filter (fun r0 => (key r0 =? key r)%string) frame) as [|y l] eqn:Ef;
      [discriminate|].
    assert (Hy : In y (filter (fun r0 => (key r0 =? key r)%string) frame))
      by (rewrite Ef; now left).
    apply filter_In in Hy as [Hy Ey]. apply String.eqb_eq in Ey. rewrite <- Ey.
    now apply in_map.
  - rewrite (IH Hn' Hr).
    destruct (key x =? key r)%string eqn:Ex; [|reflexivity].
    apply String.eqb_eq in Ex. exfalso. apply Hx. rewrite Ex. now apply in_map.
Qed.

(** X14: dropping the repeated keys of a frame leaves no key twice, keeps
    for every key the first row that has it, and is idempotent. *)
Theorem drop_duplicates_keeps_first (key : row -> string) (frame : list row) :
  NoDup (map key (drop_duplicates key frame))
  /\ (forall k, find (fun r => (key r =? k)%string) (drop_duplicates key frame)
                = find (fun r => (key r =? k)%string) frame)
  /\ drop_duplicates key (drop_duplicates key frame) = drop_duplicates key frame.
Proof.
  assert (Hn : NoDup (map key (drop_duplicates key frame)))
    by apply drop_duplicates_from_nodup.
  split; [exact Hn|]. split.
  - intros k. apply drop_duplicates_from_find. intros [].
  - unfold drop_duplicates at 1. apply drop_duplicates_from_unique.
    + intros r. now apply nodup_occurrences.
    + intros r _ [].
Qed.

(** ** One emitted line *)

Lemma scan_indent (n : nat) (s : string) :
  scan LineStart (PyStr.spaces n ++ s) = scan LineStart s.
Proof. induction n as [|n IH]; [reflexivity | exact IH]. Qed.

Lemma scan_key (k0 k s : string) :
  has_char ":" k = false -> has_char LF k = false ->
  scan (InKey k0) (k ++ String ":" s) = scan (AfterColon (k0 ++ k)) s.
Proof.
  revert k0. induction k as [|c k IH]; intros k0 Hc Hl.
  - cbn. now rewrite append_nil_r.
  - cbn [has_char] in Hc, Hl. apply orb_false_iff in Hc as [Hc Hc'], Hl as [Hl Hl'].
    cbn [append scan]. rewrite Hc, Hl, IH by assumption. now rewrite snoc_append.
Qed.

(** X15: a line written by [emit_yaml_line] for a plain key reads back as
    that key with the value as it was, whatever quotes, hashes or line
    feeds the value holds, provided the comment has no line feed. *)
Theorem emitted_line_reads_back (key value : string) (indent : nat) (cm : string) :
  plain_key key = true ->
  has_char LF cm = false ->
  scan LineStart (emit_yaml_line key value indent cm) = Some [Pair key value].
Proof.
  intros Hk Hcm. rewrite emit_yaml_line_eq, scan_indent.
  destruct key as [|c k]; [discriminate|]. cbn [plain_key] in Hk.
  apply andb_true_iff in Hk as [Hk Hl]. apply andb_true_iff in Hk as [Hc Hk].
  apply negb_true_iff in Hc, Hk, Hl.
  apply orb_false_iff in Hc as [Hc H4]. apply orb_false_iff in Hc as [Hc H3].
  apply orb_false_iff in Hc as [H1 H2].
  cbn [append scan]. rewrite H1, H2, H3, H4. cbn [orb].
  change (":'" ++ ?x)%string with (String ":" (String "'" x)).
  rewrite scan_key by assumption.
  cbn [scan Ascii.eqb Bool.eqb]. rewrite scan_value.
  rewrite scan_annotation by exact Hcm. reflexivity.
Qed.

(** ** Lists without repetition *)

Lemma nodup_app_intro {A : Type} (l1 l2 : list A) :
  NoDup l1 -> NoDup l2 -> (forall x, In x l1 -> In x l2 -> False) -> NoDup (l1 ++ l2).
Proof.
  induction l1 as [|a l1 IH]; intros H1 H2 Hd; [exact H2|].
  inversion H1 as [|? ? Ha H1']; subst. cbn [app]. constructor.
  - rewrite in_app_iff. intros [H|H]; [contradiction|]. apply (Hd a); [now left | exact H].
  - apply IH; [exact H1' | exact H2|]. intros x Hx. apply Hd. now right.
Qed.

Lemma filter_rows_distinct (keep : row -> bool) (frame : list row) :
  NoDup (map excel_row frame) -> NoDup (map excel_row (filter keep frame)).
Proof.
  induction frame as [|r frame IH]; cbn [map filter]; [trivial|].
  intros Hd. apply NoDup_cons_iff in Hd as [Hr Hd]. specialize (IH Hd).
  destruct (keep r); [|exact IH].
  cbn [map]. apply NoDup_cons; [|exact IH].
  intros Hin. apply Hr. apply in_map_iff in Hin as (r' & Er & Hr').
  apply in_map_iff. exists r'. split; [exact Er|].
  apply filter_In in Hr'. tauto.
Qed.

Lemma nodup_errors (reason : string) (rows : list row) :
  NoDup (map excel_row rows) -> NoDup (map (error_of reason) rows).
Proof.
  intros H. apply (NoDup_map_inv err_excel_row). rewrite map_map. exact H.
Qed.

Lemma normalize_from_nodup (i : nat) (rs : list raw_row) :
  NoDup (map excel_row (normalize_from i rs)).
Proof.
  revert i. induction rs as [|x rs IH]; intros i; cbn; constructor; [|apply IH].
  intros H. apply in_map_iff in H as (r & Er & Hr).
  apply normalize_from_excel_row in Hr. lia.
Qed.

Lemma frame_of_nodup (input : excel_file) : NoDup (map excel_row (frame_of input)).
Proof.
  unfold frame_of. destruct (ingest input) as [status|df_raw] eqn:Ei; [constructor|].
  destruct (ingest_frame _ _ Ei) as (rs & ->).
  apply filter_rows_distinct, normalize_from_nodup.
Qed.

Section Coverage.
Variable float_of_str : string -> option spec_float.
Variable str_of_float : spec_float -> string.

Local Abbreviation validate_ := (validate float_of_str str_of_float).
Local Abbreviation summarize_ := (summarize float_of_str str_of_float).
Local Abbreviation main_ := (main float_of_str str_of_float).
Local Abbreviation violations_ := (violations float_of_str str_of_float).
Local Abbreviation numeric_errors_ := (numeric_errors float_of_str str_of_float).
Local Abbreviation violation_ := (violation float_of_str str_of_float).

Lemma validate_nil_blocks (args : config) (df : list row) :
  validate_ args df = [] ->
  select_type "" df = []
  /\ bad_nzbn_rows (fourth_of df) = []
  /\ duplicated_rows nzbn (fourth_of df) = []
  /\ duplicated_rows accountNumber (cred_of df) = []
  /\ numeric_errors_ args (max_fourth args) (fourth_of df) = []
  /\ numeric_errors_ args (max_creditor args) (cred_of df) = [].
Proof.
  rewrite validate_eq. intros H.
  apply app_eq_nil in H as [H1 H]. apply app_eq_nil in H as [H2 H].
  apply app_eq_nil in H as [H3 H]. apply app_eq_nil in H as [H4 H].
  apply app_eq_nil in H as [H5 H6].
  apply map_eq_nil in H1, H2, H3, H4. repeat split; assumption.
Qed.

(** X1: the two de-duplication flags never change a run: on a failing run
    the de-duplication is not reached, and a run without violations has no
    repeated key left to drop. *)
Theorem dedupe_flags_never_matter
    (args : config) (input : excel_file) (accounts nzbn_flag : bool) :
  main_ (with_dedupe accounts nzbn_flag args) input = main_ args input.
Proof.
  unfold main, process. destruct (ingest input) as [status|df_raw]; [reflexivity|].
  change (validate_ (with_dedupe accounts nzbn_flag args) (drop_blank df_raw))
    with (validate_ args (drop_blank df_raw)).
  change (summarize_ (with_dedupe accounts nzbn_flag args) (drop_blank df_raw))
    with (summarize_ args (drop_blank df_raw)).
  destruct (validate_ args (drop_blank df_raw)) as [|e es] eqn:Ev; [|reflexivity].
  apply validate_nil_blocks in Ev as (_ & _ & Hn & Ha & _).
  f_equal. unfold document_of, dedupe_cred, dedupe_fourth.
  rewrite (drop_duplicates_unique _ _ Hn), (drop_duplicates_unique _ _ Ha).
  now repeat match goal with |- context [if ?b then _ else _] => destruct b end.
Qed.

Lemma numeric_errors_empty (args : config) (ceiling : option spec_float) :
  numeric_errors_ args ceiling [] = [].
Proof.
  unfold numeric_errors. now destruct (require_numeric_paymentlimit args), ceiling.
Qed.

Lemma violations_frame (args : config) (input : excel_file) :
  violations_ args input = validate_ args (frame_of input).
Proof.
  unfold violations, frame_of. destruct (ingest input) as [status|df_raw]; [|reflexivity].
  rewrite validate_eq. cbn. now rewrite !numeric_errors_empty.
Qed.

Lemma isna_not_gt (x : option spec_float) (m : spec_float) :
  isna x = true -> gt_max x m = false.
Proof.
  destruct x as [[s|s| |s p e]|]; cbn; try discriminate; intros _; [|reflexivity].
  unfold SFltb. now destruct m.
Qed.

(** X2: a run that writes a document found every check passed: every row
    of the frame is a creditor account or a fourth party, every NZBN has 13
    digits, no key is repeated within its kind, and where the numeric
    checks are configured every limit is numeric and none exceeds the
    ceiling of its kind. *)
Theorem written_document_sound (args : config) (input : excel_file) (doc : string) :
  main_ args input = Wrote doc ->
  (forall r, In r (frame_of input) ->
     In r (cred_of (frame_of input)) \/ In r (fourth_of (frame_of input)))
  /\ (forall r, In r (fourth_of (frame_of input)) ->
        PyStr.fullmatch_digits 13 (nzbn r) = true
        /\ occurrences nzbn (nzbn r) (fourth_of (frame_of input)) = 1)
  /\ (forall r, In r (cred_of (frame_of input)) ->
        occurrences accountNumber (accountNumber r) (cred_of (frame_of input)) = 1)
  /\ (require_numeric_paymentlimit args = true ->
      forall r, In r (frame_of input) -> isna (pl_num float_of_str r) = false)
  /\ (forall m r, max_fourth args = Some m -> In r (fourth_of (frame_of input)) ->
        gt_max (pl_num float_of_str r) m = false)
  /\ (forall m r, max_creditor args = Some m -> In r (cred_of (frame_of input)) ->
        gt_max (pl_num float_of_str r) m = false).
Proof.
  intros Hm. apply main_wrote_inv in Hm as [Hv _].
  rewrite violations_frame in Hv.
  apply validate_nil_blocks in Hv as (Ht & Hb & Hdn & Hda & Hnf & Hnc).
  set (df := frame_of input) in *.
  assert (Hkind : forall r, In r df -> In r (cred_of df) \/ In r (fourth_of df)).
  { intros r Hr. destruct (frame_of_kind input r Hr) as [E|[E|E]].
    - assert (H : In r (select_type "" df)) by (apply in_select_type; auto).
      rewrite Ht in H. contradiction.
    - left. apply in_cred_of. auto.
    - right. apply in_fourth_of. auto. }
  unfold numeric_errors in Hnf, Hnc.
  apply app_eq_nil in Hnf as [Hqf Hof], Hnc as [Hqc Hoc].
  split; [exact Hkind|]. split; [|split; [|split; [|split]]].
  - intros r Hr. split; [|now apply duplicated_rows_nil].
    apply (filter_nil_false _ _ r) in Hb; [|exact Hr].
    now apply negb_false_iff in Hb.
  - intros r Hr. now apply duplicated_rows_nil.
  - intros Hq r Hr. rewrite Hq in Hqf, Hqc. apply map_eq_nil in Hqf, Hqc.
    destruct (Hkind r Hr) as [Hc|Hf].
    + exact (filter_nil_false _ _ r Hqc Hc).
    + exact (filter_nil_false _ _ r Hqf Hf).
  - intros m r Hmax Hr. rewrite Hmax in Hof. apply map_eq_nil in Hof.
    apply (filter_nil_false _ _ r) in Hof; [|exact Hr]. cbv beta in Hof.
    destruct (isna (pl_num float_of_str r)) eqn:En; [now apply isna_not_gt|].
    exact Hof.
  - intros m r Hmax Hr. rewrite Hmax in Hoc. apply map_eq_nil in Hoc.
    apply (filter_nil_false _ _ r) in Hoc; [|exact Hr]. cbv beta in Hoc.
    destruct (isna (pl_num float_of_str r)) eqn:En; [now apply isna_not_gt|].
    exact Hoc.
Qed.

(** X3: the violations of a run are those of the structural checks (kind,
    NZBN format, duplicates), which no numeric option influences, followed
    by those of the numeric checks on the fourth parties and then on the
    creditor accounts. *)
Theorem structural_then_numeric (args : config) (input : excel_file) :
  violations_ args input
  = violations_ (structural_only args) input
    ++ numeric_errors_ args (max_fourth args) (fourth_of (frame_of input))
    ++ numeric_errors_ args (max_creditor args) (cred_of (frame_of input)).
Proof.
  rewrite !violations_frame, !validate_eq. cbn [structural_only max_fourth max_creditor].
  unfold numeric_errors at 3 4. cbn [require_numeric_paymentlimit structural_only app].
  now rewrite <- !app_assoc.
Qed.

(** X4: the summary of a run has a line exactly when the run recorded a
    violation: a failing run always prints at least one summary line, and
    no summary line is built for a run without violations. *)
Theorem summary_empty_iff (args : config) (input : excel_file) :
  summarize_ args (frame_of input) = [] <-> violations_ args input = [].
Proof.
  rewrite violations_frame, summarize_eq, validate_eq. unfold numeric_errors.
  set (df := frame_of input).
  destruct (require_numeric_paymentlimit args), (max_fourth args), (max_creditor args);
    rewrite ?app_nil_r; cbn [app]; (split; intros H);
    repeat match goal with
           | E : _ ++ _ = [] |- _ => apply app_eq_nil in E; destruct E
           end;
    repeat match goal with
           | E : summary_line (List.length _) _ = [] |- _ =>
               apply summary_line_length_nil in E; rewrite E
           | E : map _ _ = [] |- _ => apply map_eq_nil in E; rewrite E
           end;
    reflexivity.
Qed.

(** X5: the rows of the frame are split among the creditor accounts, the
    fourth parties and the rows of unrecognised kind: every row is in
    exactly one of the three, so their sizes add up to that of the frame. *)
Theorem frame_partition (input : excel_file) :
  Permutation (frame_of input)
    (cred_of (frame_of input) ++ fourth_of (frame_of input)
     ++ select_type "" (frame_of input))
  /\ List.length (frame_of input)
     = List.length (cred_of (frame_of input))
       + List.length (fourth_of (frame_of input))
       + List.length (select_type "" (frame_of input)).
Proof.
  assert (H := kinds_partition (frame_of input) (frame_of_kind input)).
  split; [exact H|].
  rewrite (Permutation_length H) at 1. rewrite !length_app. lia.
Qed.

(** X6: a run ends as an ingestion error exactly when the workbook cannot
    be opened (status 1) or when it has no sheet "data" or the sheet lacks
    one of the columns type, id, paymentLimit and comment (status 2); the
    rows and the options play no part. *)
Theorem ingestion_errors (args : config) (input : excel_file) (status : nat) :
  main_ args input = IngestionError status <->
  (input = Unreadable /\ status = 1)
  \/ (status = 2
      /\ exists sheets,
           input = Workbook sheets
           /\ match find_sheet "data" sheets with
              | None => True
              | Some sh => exists col, In col required_columns /\ has_column sh col = false
              end).
Proof.
  unfold main, ingest. destruct input as [|sheets].
  - split.
    + intros [= <-]. now left.
    + intros [[_ ->]|(_ & sheets & H & _)]; [reflexivity | discriminate].
  - destruct (find_sheet "data" sheets) as [sh|] eqn:Ef.
    + destruct (forallb (has_column sh) required_columns) eqn:Ec.
      * split.
        -- unfold process.
           destruct (validate_ args (drop_blank (df_raw_of (records sh)))); discriminate.
        -- intros [[H _]|(_ & sheets' & [= <-] & H)]; [discriminate|].
           rewrite Ef in H. destruct H as (col & Hin & Hcol).
           rewrite forallb_forall in Ec. rewrite (Ec col Hin) in Hcol. discriminate.
      * split.
        -- intros [= <-]. right. split; [reflexivity|]. exists sheets.
           split; [reflexivity|]. rewrite Ef.
           destruct (forallb_exists_false _ _ Ec) as (col & Hin & Hcol). eauto.
        -- intros [[H _]|(-> & _)]; [discriminate | reflexivity].
    + split.
      * intros [= <-]. right. split; [reflexivity|]. exists sheets.
        split; [reflexivity|]. now rewrite Ef.
      * intros [[H _]|(-> & _)]; [discriminate | reflexivity].
Qed.

(** X7: every violation points at a record of the sheet: its row number
    is the position of the record plus 2 (the header and the 1-based
    count), its identifier and limit are the normalised cells of that
    record, and the record is not a blank row. *)
Theorem violation_provenance (args : config) (input : excel_file) (e : error_row) :
  In e (violations_ args input) ->
  exists k raw,
    nth_error (records_of input) k = Some raw
    /\ err_excel_row e = k + 2
    /\ err_id e = normalize_str (raw_id raw)
    /\ err_paymentLimit e = normalize_str (raw_paymentLimit raw)
    /\ all_blank (normalize_row k raw) = false.
Proof.
  rewrite violations_frame, in_validate_iff. intros H.
  apply violation_row in H as (r & Hr & ->).
  apply in_frame_of in Hr as (k & raw & Hk & -> & Hb).
  exists k, raw. repeat split; assumption.
Qed.

(** Entries of two different checks differ in their reason. *)
Ltac reasons_differ :=
  match goal with
  | H : error_of _ _ = error_of _ _ |- _ =>
      apply error_of_inv in H; destruct H as (H & _);
      unfold reason_over, reason_bad_type, reason_bad_nzbn, reason_dup_nzbn,
        reason_dup_acct, reason_non_numeric in H;
      simpl in H; discriminate H
  end.

Lemma isna_iff (r : row) :
  isna (pl_num float_of_str r) = true <->
  to_number_or_none float_of_str (paymentLimit r) = None
  \/ to_number_or_none float_of_str (paymentLimit r) = Some S754_nan.
Proof.
  unfold pl_num.
  destruct (to_number_or_none float_of_str (paymentLimit r)) as [[s|s| |s p e]|]; cbn;
    split; try discriminate; auto; intros [H|H]; discriminate.
Qed.

Lemma non_numeric_isna (args : config) (df : list row) (r : row) :
  In (error_of reason_non_numeric r) (validate_ args df) ->
  require_numeric_paymentlimit args = true /\ isna (pl_num float_of_str r) = true.
Proof.
  rewrite in_validate_iff. intros H.
  remember (error_of reason_non_numeric r) as e eqn:E.
  destruct H as [r' Hr' Ht|r' Hr' Hf|r' Hr' Hd|r' Hr' Hd
                |r' Hq Hr' Hna|r' m' Hc Hr' Hna Hgt
                |r' Hq Hr' Hna|r' m' Hc Hr' Hna Hgt];
    try reasons_differ;
    apply error_of_inv in E as (_ & _ & _ & E & _);
    rewrite <- (pl_num_ext _ _ _ E); auto.
Qed.

Lemma over_not_isna (args : config) (df : list row) (r : row) (m : spec_float) :
  In (error_of (reason_over str_of_float m) r) (validate_ args df) ->
  isna (pl_num float_of_str r) = false.
Proof.
  rewrite in_validate_iff. intros H.
  remember (error_of (reason_over str_of_float m) r) as e eqn:E.
  destruct H as [r' Hr' Ht|r' Hr' Hf|r' Hr' Hd|r' Hr' Hd
                |r' Hq Hr' Hna|r' m' Hc Hr' Hna Hgt
                |r' Hq Hr' Hna|r' m' Hc Hr' Hna Hgt];
    try reasons_differ;
    apply error_of_inv in E as (_ & _ & _ & E & _);
    rewrite <- (pl_num_ext _ _ _ E); auto.
Qed.

(** X8: for a creditor-account or fourth-party row the violation
    "non-numeric paymentLimit" is recorded exactly when numeric limits are
    required and the limit text does not parse or parses to a NaN; such a
    row never also gets a ceiling violation. *)
Theorem non_numeric_checked (args : config) (input : excel_file) (r : row) :
  In r (cred_of (frame_of input)) \/ In r (fourth_of (frame_of input)) ->
  (In (error_of reason_non_numeric r) (violations_ args input) <->
   require_numeric_paymentlimit args = true
   /\ (to_number_or_none float_of_str (paymentLimit r) = None
       \/ to_number_or_none float_of_str (paymentLimit r) = Some S754_nan))
  /\ (forall m, In (error_of reason_non_numeric r) (violations_ args input) ->
                ~ In (error_of (reason_over str_of_float m) r) (violations_ args input)).
Proof.
  intros Hr. rewrite violations_frame, <- isna_iff. split; [split|].
  - apply non_numeric_isna.
  - intros [Hq Hna]. apply in_validate_iff.
    destruct Hr as [Hr|Hr]; [now apply V_non_numeric_cred | now apply V_non_numeric_fourth].
  - intros m Hn Ho. apply non_numeric_isna in Hn as [_ Hn].
    apply over_not_isna in Ho. congruence.
Qed.

(** X9: a key that occurs once among the rows of its kind is never
    flagged as a duplicate, whatever the rows of the other kind hold. *)
Theorem unique_key_not_flagged (args : config) (input : excel_file) (r : row) :
  (In r (fourth_of (frame_of input)) ->
   occurrences nzbn (nzbn r) (fourth_of (frame_of input)) = 1 ->
   ~ In (error_of reason_dup_nzbn r) (violations_ args input))
  /\ (In r (cred_of (frame_of input)) ->
      occurrences accountNumber (accountNumber r) (cred_of (frame_of input)) = 1 ->
      ~ In (error_of reason_dup_acct r) (violations_ args input)).
Proof.
  rewrite violations_frame, !in_validate_iff. split; intros Hr Ho H.
  - remember (error_of reason_dup_nzbn r) as e eqn:E.
    destruct H as [r' Hr' Ht|r' Hr' Hf|r' Hr' Hd|r' Hr' Hd
                  |r' Hq Hr' Hna|r' m' Hc Hr' Hna Hgt
                  |r' Hq Hr' Hna|r' m' Hc Hr' Hna Hgt];
      try reasons_differ.
    apply error_of_inv in E as (_ & _ & E & _).
    rewrite <- (nzbn_ext _ _ E) in Ho. lia.
  - remember (error_of reason_dup_acct r) as e eqn:E.
    destruct H as [r' Hr' Ht|r' Hr' Hf|r' Hr' Hd|r' Hr' Hd
                  |r' Hq Hr' Hna|r' m' Hc Hr' Hna Hgt
                  |r' Hq Hr' Hna|r' m' Hc Hr' Hna Hgt];
      try reasons_differ.
    apply error_of_inv in E as (_ & _ & E & _).
    unfold accountNumber in *. rewrite <- E in Ho. lia.
Qed.

(** X12: the whitespace around a limit text plays no part in its parsing,
    and the limit of a row, already normalised, is parsed as it stands. *)
Theorem to_number_ignores_blanks (s : string) (x : cell) :
  to_number_or_none float_of_str (PyStr.strip s) = to_number_or_none float_of_str s
  /\ to_number_or_none float_of_str (normalize_str x) = float_of_str (normalize_str x).
Proof.
  unfold to_number_or_none. rewrite strip_idempotent. split; [reflexivity|].
  destruct x as [t|]; cbn [normalize_str]; [now rewrite strip_idempotent | reflexivity].
Qed.







Ltac kinds_differ df :=
  match goal with
  | E : error_of _ ?a = error_of _ ?b, Ha : In ?a (fourth_of df), Hb : In ?b (cred_of df) |- _ =>
      apply error_of_inv in E; destruct E as (_ & _ & _ & _ & E);
      rewrite (err_type_fourth _ df a Ha), (err_type_cred _ df b Hb) in E; discriminate E
  | E : error_of _ ?a = error_of _ ?b, Ha : In ?a (cred_of df), Hb : In ?b (fourth_of df) |- _ =>
      apply error_of_inv in E; destruct E as (_ & _ & _ & _ & E);
      rewrite (err_type_cred _ df a Ha), (err_type_fourth _ df b Hb) in E; discriminate E
  end.

Ltac blocks_apart df :=
  let x := fresh "x" in
  let H1 := fresh "H1" in
  let H2 := fresh "H2" in
  intros x H1 H2; rewrite ?in_app_iff in H1; rewrite ?in_app_iff in H2;
  repeat match goal with
         | H : _ \/ _ |- _ => destruct H
         | H : In _ [] |- _ => destruct H
         end;
  match goal with
  | Ha : In x (map (error_of _) _), Hb : In x (map (error_of _) _) |- _ =>
      let ra := fresh "ra" in
      let rb := fresh "rb" in
      let E := fresh "E" in
      apply in_map_iff in Ha as (ra & <- & Ha); apply in_map_iff in Hb as (rb & E & Hb);
      unfold bad_nzbn_rows, duplicated_rows, bad_num_rows, over_rows in Ha, Hb;
      apply filter_In in Ha as [Ha _]; apply filter_In in Hb as [Hb _];
      first [reasons_differ | kinds_differ df]
  end.

Ltac block_nodup H :=
  apply nodup_errors;
  unfold bad_nzbn_rows, duplicated_rows, bad_num_rows, over_rows, cred_of, fourth_of,
    select_type;
  repeat apply filter_rows_distinct; exact H.

(** X18: no violation is recorded twice: the entries of a run are pairwise
    different. *)
Theorem violations_nodup (args : config) (input : excel_file) :
  NoDup (violations_ args input).
Proof.
  rewrite violations_frame, validate_eq. unfold numeric_errors.
  assert (H := frame_of_nodup input). set (df := frame_of input) in *.
  destruct (require_numeric_paymentlimit args), (max_fourth args), (max_creditor args);
    repeat match goal with
           | |- NoDup (_ ++ _) => apply nodup_app_intro
           | |- NoDup [] => constructor
           | |- NoDup (map (error_of _) _) => block_nodup H
           | |- forall _, In _ _ -> In _ _ -> False => blocks_apart df
           end.
Qed.

(** X19: every entry of a run is of one of three sorts: an entry for an
    unrecognised kind, shown with the type cell as it was typed; an entry
    of kind fourthParty with a fourth-party reason; or an entry of kind
    creditorAccount with a creditor-account reason. *)
Theorem violation_sorts (args : config) (input : excel_file) (e : error_row) :
  In e (violations_ args input) ->
  (err_reason e = reason_bad_type
   /\ exists k raw,
        nth_error (records_of input) k = Some raw
        /\ err_excel_row e = k + 2
        /\ err_type e = cell_or_empty (raw_type raw))
  \/ (err_type e = "fourthParty" /\ fourth_reason str_of_float args (err_reason e))
  \/ (err_type e = "creditorAccount" /\ cred_reason str_of_float args (err_reason e)).
Proof.
  rewrite violations_frame, in_validate_iff. unfold fourth_reason, cred_reason.
  intros [r Hr Ht|r Hr Hf|r Hr Hd|r Hr Hd|r Hq Hr Hna|r m Hc Hr Hna Hgt
         |r Hq Hr Hna|r m Hc Hr Hna Hgt].
  - left. split; [reflexivity|].
    apply in_frame_of in Hr as (k & raw & Hk & -> & _). exists k, raw.
    split; [exact Hk|]. split; [reflexivity|].
    unfold error_of. cbn [err_type]. rewrite Ht. reflexivity.
  - right; left. rewrite (err_type_fourth _ _ _ Hr). cbn [err_reason error_of]. auto.
  - right; left. rewrite (err_type_fourth _ _ _ Hr). cbn [err_reason error_of]. auto.
  - right; right. rewrite (err_type_cred _ _ _ Hr). cbn [err_reason error_of]. auto.
  - right; left. rewrite (err_type_fourth _ _ _ Hr). cbn [err_reason error_of]. auto.
  - right; left. rewrite (err_type_fourth _ _ _ Hr). cbn [err_reason error_of].
    split; [reflexivity|]. right; right; right. eauto.
  - right; right. rewrite (err_type_cred _ _ _ Hr). cbn [err_reason error_of]. auto.
  - right; right. rewrite (err_type_cred _ _ _ Hr). cbn [err_reason error_of].
    split; [reflexivity|]. right; right. eauto.
Qed.

(** X20: while numeric limits are not required, a limit that does not
    parse raises no violation of its own, also where a ceiling is set: the
    ceiling check passes over it. *)
Theorem unparsed_limit_passes (args : config) (input : excel_file) (r : row) :
  require_numeric_paymentlimit args = false ->
  isna (pl_num float_of_str r) = true ->
  ~ In (error_of reason_non_numeric r) (violations_ args input)
  /\ forall m, ~ In (error_of (reason_over str_of_float m) r) (violations_ args input).
Proof.
  intros Hq Hna. rewrite violations_frame. split.
  - intros H. apply non_numeric_isna in H as [H _]. congruence.
  - intros m H. apply over_not_isna in H. congruence.
Qed.

End Coverage.

(** ** The further properties at concrete runs *)

Lemma written_document_sound_witness :
  exit_status (Scenario.run Demo.no_flags (Demo.book Scenario.rows_d)) = 0
  /\ (forall r, In r (frame_of (Demo.book Scenario.rows_d)) ->
        In r (cred_of (frame_of (Demo.book Scenario.rows_d)))
        \/ In r (fourth_of (frame_of (Demo.book Scenario.rows_d)))).
Proof.
  split; [reflexivity|].
  exact (proj1 (written_document_sound Demo.float_of_str Demo.str_of_float Demo.no_flags
                  (Demo.book Scenario.rows_d) _ scenario_d)).
Defined.

Lemma violation_provenance_witness :
  In Run.entry_bogus (Scenario.found Scenario.require_numeric (Demo.book Scenario.rows_a))
  /\ exists k raw,
       nth_error (records_of (Demo.book Scenario.rows_a)) k = Some raw
       /\ err_excel_row Run.entry_bogus = k + 2
       /\ err_id Run.entry_bogus = normalize_str (raw_id raw)
       /\ err_paymentLimit Run.entry_bogus = normalize_str (raw_paymentLimit raw)
       /\ all_blank (normalize_row k raw) = false.
Proof.
  assert (H : In Run.entry_bogus
                (Scenario.found Scenario.require_numeric (Demo.book Scenario.rows_a)))
    by (vm_compute; left; reflexivity).
  split; [exact H|].
  exact (violation_provenance Demo.float_of_str Demo.str_of_float
           Scenario.require_numeric (Demo.book Scenario.rows_a) Run.entry_bogus H).
Defined.

Lemma non_numeric_checked_witness :
  In Run.row_abc (fourth_of (frame_of (Demo.book Scenario.rows_a)))
  /\ In (error_of reason_non_numeric Run.row_abc)
        (Scenario.found Scenario.require_numeric (Demo.book Scenario.rows_a)).
Proof.
  assert (H : In Run.row_abc (fourth_of (frame_of (Demo.book Scenario.rows_a))))
    by (vm_compute; left; reflexivity).
  split; [exact H|].
  apply (proj1 (non_numeric_checked Demo.float_of_str Demo.str_of_float
                  Scenario.require_numeric (Demo.book Scenario.rows_a) Run.row_abc
                  (or_intror H))).
  split; [reflexivity | left; reflexivity].
Defined.

Lemma unique_key_not_flagged_witness :
  (In Run.row_cross_fourth (fourth_of (frame_of (Demo.book Run.rows_cross)))
   /\ ~ In (error_of reason_dup_nzbn Run.row_cross_fourth)
          (Scenario.found Demo.no_flags (Demo.book Run.rows_cross)))
  /\ (In Run.row_cross_cred (cred_of (frame_of (Demo.book Run.rows_cross)))
      /\ ~ In (error_of reason_dup_acct Run.row_cross_cred)
             (Scenario.found Demo.no_flags (Demo.book Run.rows_cross))).
Proof.
  assert (Hf : In Run.row_cross_fourth (fourth_of (frame_of (Demo.book Run.rows_cross))))
    by (vm_compute; left; reflexivity).
  assert (Hc : In Run.row_cross_cred (cred_of (frame_of (Demo.book Run.rows_cross))))
    by (vm_compute; left; reflexivity).
  split; (split; [assumption|]).
  - exact (proj1 (unique_key_not_flagged Demo.float_of_str Demo.str_of_float Demo.no_flags
                    (Demo.book Run.rows_cross) Run.row_cross_fourth) Hf eq_refl).
  - exact (proj2 (unique_key_not_flagged Demo.float_of_str Demo.str_of_float Demo.no_flags
                    (Demo.book Run.rows_cross) Run.row_cross_cred) Hc eq_refl).
Defined.

Lemma emitted_line_reads_back_witness :
  scan LineStart (emit_yaml_line "paymentLimit" "it's # 5" 6 "x")
  = Some [Pair "paymentLimit" "it's # 5"].
Proof.
  exact (emitted_line_reads_back "paymentLimit" "it's # 5" 6 "x" eq_refl eq_refl).
Defined.


Lemma violation_sorts_witness :
  In Run.entry_bogus (Scenario.found Scenario.require_numeric (Demo.book Scenario.rows_a))
  /\ ((err_reason Run.entry_bogus = reason_bad_type
       /\ exists k raw,
            nth_error (records_of (Demo.book Scenario.rows_a)) k = Some raw
            /\ err_excel_row Run.entry_bogus = k + 2
            /\ err_type Run.entry_bogus = cell_or_empty (raw_type raw))
      \/ (err_type Run.entry_bogus = "fourthParty"
          /\ fourth_reason Demo.str_of_float Scenario.require_numeric
               (err_reason Run.entry_bogus))
      \/ (err_type Run.entry_bogus = "creditorAccount"
          /\ cred_reason Demo.str_of_float Scenario.require_numeric
               (err_reason Run.entry_bogus))).
Proof.
  assert (H : In Run.entry_bogus
                (Scenario.found Scenario.require_numeric (Demo.book Scenario.rows_a)))
    by (vm_compute; left; reflexivity).
  split; [exact H|].
  exact (violation_sorts Demo.float_of_str Demo.str_of_float
           Scenario.require_numeric (Demo.book Scenario.rows_a) Run.entry_bogus H).
Defined.

Lemma unparsed_limit_passes_witness :
  require_numeric_paymentlimit Scenario.ceiling_100 = false
  /\ isna (pl_num Demo.float_of_str Run.row_abc) = true
  /\ ~ In (error_of (reason_over Demo.str_of_float Scenario.hundred) Run.row_abc)
          (Scenario.found Scenario.ceiling_100 (Demo.book Scenario.rows_a)).
Proof.
  split; [reflexivity|]. split; [reflexivity|].
  exact (proj2 (unparsed_limit_passes Demo.float_of_str Demo.str_of_float
                  Scenario.ceiling_100 (Demo.book Scenario.rows_a) Run.row_abc
                  eq_refl eq_refl) Scenario.hundred).
Defined.
